(** * hamkee-fastapi: the outbound HTTP client, the settings loader and the
    application bootstrap, embedded from the Python sources

  - [Py]            the fragment of the Python runtime the sources rely on
                    (completions, exceptions, [str], [upper], [range], [or]);
  - [Http]          app/services/http.py, the client class;
  - [Settings]      app/services/settings.py, the classes and [create];
  - [Main]          app/main.py;
  - [HttpDefault]   app/services/http.py, the module-level client;
  - [TestSettings]  app/services/settings.py, [as_dict] and
                    [get_test_settings];
  - [Logger]        app/services/logger.py. *)

From Stdlib Require Import ZArith List String Ascii Bool Lia DecimalString.
From stdpp Require Import gmap strings.
Set Warnings "-register-all".
Import ListNotations.
Local Open Scope Z_scope.

(* ===================================================================== *)
(** ** The Python runtime fragment *)
(* ===================================================================== *)
Module Py.

(** How a call ends: it returns a value or raises an exception. *)
Inductive Completion (E A : Type) : Type :=
| Returns (a : A)
| Raises (e : E).
Arguments Returns {E A} a.
Arguments Raises {E A} e.

(** An exception instance: the method resolution order of its class (the
    class itself first, then its bases) and the text [str(e)] gives. *)
Record PyException : Type := {
  exc_mro : list string;
  exc_str : string
}.

(** [isinstance(e, cls)]: [cls] occurs in the MRO of [type(e)]. *)
Definition isinstance (e : PyException) (cls : string) : bool :=
  existsb (String.eqb cls) (exc_mro e).

(** [except classes as e]: the clause matches when [e] is an instance of
    one of the classes of the tuple. *)
Definition except_matches (classes : list string) (e : PyException) : bool :=
  existsb (isinstance e) classes.

(** Values that travel as keyword arguments. *)
Inductive PyValue : Type :=
| PyNone
| PyInt (z : Z)
| PyStr (s : string)
| PyDict (items : list (string * PyValue)).

Definition Kwargs : Type := list (string * PyValue).

(** [str(n)] for an int. *)
Definition str_int (z : Z) : string := NilZero.string_of_int (Z.to_int z).

(** [s.upper()] on ASCII text. *)
Definition upper_ascii (c : ascii) : ascii :=
  let n := nat_of_ascii c in
  if (97 <=? n)%nat && (n <=? 122)%nat then ascii_of_nat (n - 32) else c.

Fixpoint upper (s : string) : string :=
  match s with
  | EmptyString => EmptyString
  | String c s' => String (upper_ascii c) (upper s')
  end.

(** [range(n)]: 0, 1, ..., n-1; empty when [n <= 0]. *)
Definition range (n : Z) : list Z := map Z.of_nat (seq 0 (Z.to_nat n)).

(** [t or d] for an optional int [t]: [None] and [0] are falsy. *)
Definition or_int (t : option Z) (d : Z) : Z :=
  match t with
  | None => d
  | Some z => if z =? 0 then d else z
  end.

(** The [Result] type of the [result] package. *)
Inductive Result (T E : Type) : Type :=
| Ok (v : T)
| Err (e : E).
Arguments Ok {T E} v.
Arguments Err {T E} e.

End Py.
Import Py.

(* ===================================================================== *)
(** ** app/services/http.py *)
(* ===================================================================== *)
Module Http.

(** [httpx.Response], as far as the client looks at it: not at all. *)
Record Response : Type := {
  status_code : Z;
  content : string
}.

(** [HTTPClientConfig]. *)
Record HTTPClientConfig : Type := {
  default_timeout : Z;
  max_retries : Z;
  verify_ssl : bool;
  retryable_exceptions : list string
}.

(** [HTTPClientConfig.__init__] with its defaults. *)
Definition HTTPClientConfig_init (default_timeout_arg max_retries_arg : option Z)
    (verify_ssl_arg : option bool) (retryable_arg : option (list string))
    : HTTPClientConfig :=
  {| default_timeout := default 5 default_timeout_arg;
     max_retries := default 5 max_retries_arg;
     verify_ssl := default true verify_ssl_arg;
     retryable_exceptions :=
       match retryable_arg with
       | None => ["ConnectTimeout"; "RemoteProtocolError"; "ReadTimeout"]
       | Some classes => classes
       end |}.

(** An [httpx.AsyncClient] instance: its identity and the [verify] flag it
    was built with. *)
Record AsyncClient : Type := {
  client_id : nat;
  verify : bool
}.

(** One call of a verb method of the pooled client. *)
Record Request : Type := {
  req_method : string;
  req_url : string;
  req_kwargs : Kwargs
}.

(** The three methods the module calls on the name [logger]. *)
Inductive Level : Type := DEBUG | INFO | ERROR.

(** The argument of a logging call. The "Sending ..." line interpolates the
    keyword dictionary, which is kept as data. *)
Inductive LogMsg : Type :=
| Text (s : string)
| Sending (method_upper url : string) (kwargs : Kwargs).

(** What the client does to the outside, in order. *)
Inductive Event : Type :=
| EvNewClient (c : AsyncClient)
| EvRequest (c : AsyncClient) (r : Request)
| EvAclose (c : AsyncClient).

Definition is_request (ev : Event) : bool :=
  match ev with EvRequest _ _ => true | _ => false end.

(** The network (or a mock's side effects): what the [n]-th underlying
    request call of the run does. *)
Definition Transport : Type :=
  nat -> AsyncClient -> Request -> Completion PyException Response.

(** [HTTPClient]: [self.config] and [self._client]. *)
Record HTTPClient : Type := {
  config : HTTPClientConfig;
  _client : option AsyncClient
}.

(** [HTTPClient.__init__]. *)
Definition HTTPClient_init (client : option AsyncClient)
    (config_arg : option HTTPClientConfig) : HTTPClient :=
  {| config := default (HTTPClientConfig_init None None None None) config_arg;
     _client := client |}.

(** The client object together with the world it runs in. *)
Record State : Type := {
  self : HTTPClient;
  events : list Event;
  next_id : nat;
  transport : Transport
}.

Definition call_count (st : State) : nat :=
  List.length (List.filter is_request (events st)).

Definition emit (ev : Event) (st : State) : State :=
  {| self := self st; events := events st ++ [ev];
     next_id := next_id st; transport := transport st |}.

(** *** The name [logger]

    Line 13, [from app.services import logger], binds [logger] to the
    module app/services/logger.py. [logger_module_names] is what that
    module defines at its top level: its imports, the two type aliases,
    the three classes and the two factory functions. The loguru logger is
    one of them, under the name [logger.logger]; the methods [debug],
    [info] and [error] belong to the class [Logger] and to loguru's
    logger, not to the module. *)
Definition logger_module_names : list string :=
  ["sys"; "Any"; "Optional"; "Union"; "Path"; "logger"; "LogLevel"; "HandlerId";
   "LoggerConfig"; "Logger"; "LoggerFactory"; "create_logger"; "create_file_logger"].

(** The attribute a logging call looks up on [logger]. *)
Definition level_method (lvl : Level) : string :=
  match lvl with
  | DEBUG => "debug"
  | INFO => "info"
  | ERROR => "error"
  end.

(** The exception of a failed attribute lookup on the module. *)
Definition module_AttributeError (name : string) : PyException :=
  {| exc_mro := ["AttributeError"; "Exception"; "BaseException"; "object"];
     exc_str := "module 'app.services.logger' has no attribute '" +:+ name +:+ "'" |}.

(** [logger.debug(msg)], [logger.info(msg)], [logger.error(msg)]: the
    attribute is looked up on the module, which has none of the three
    names, so the statement raises [AttributeError] before the message is
    passed on. Nothing is logged and the state is as it was. *)
Definition log (lvl : Level) (msg : LogMsg) (st : State)
    : Completion PyException unit * State :=
  (Raises (module_AttributeError (level_method lvl)), st).

Definition set_client (c : option AsyncClient) (st : State) : State :=
  {| self := {| config := config (self st); _client := c |};
     events := events st; next_id := next_id st; transport := transport st |}.

(** [AsyncClient(verify=v)]: a new instance. *)
Definition AsyncClient_new (v : bool) (st : State) : AsyncClient * State :=
  let c := {| client_id := next_id st; verify := v |} in
  (c, emit (EvNewClient c)
        {| self := self st; events := events st;
           next_id := S (next_id st); transport := transport st |}).

(** [HTTPClient.get_client]. *)
Definition get_client (st : State) : AsyncClient * State :=
  match _client (self st) with
  | None =>
      let '(c, st1) := AsyncClient_new (verify_ssl (config (self st))) st in
      (c, set_client (Some c) st1)
  | Some c => (c, st)
  end.

(** [HTTPClient.close]: with a pooled client, [aclose()] is awaited and
    [_client] is cleared before the logging statement of line 200 runs. *)
Definition close (st : State) : Completion PyException unit * State :=
  match _client (self st) with
  | Some c =>
      let st1 := emit (EvAclose c) st in
      let st2 := set_client None st1 in
      log INFO (Text "Closed HTTP client.") st2
  | None => (Returns tt, st)
  end.

(** The verb methods of [httpx.AsyncClient] that take [(url, **kwargs)]. *)
Definition client_verbs : list string :=
  ["get"; "options"; "head"; "post"; "put"; "patch"; "delete"].

(** [getattr(client, name)] for a name the client does not have. *)
Definition AttributeError (name : string) : PyException :=
  {| exc_mro := ["AttributeError"; "Exception"; "BaseException"; "object"];
     exc_str := "'AsyncClient' object has no attribute '" +:+ name +:+ "'" |}.

(** [await request_func(url, **kwargs)]: the call is recorded and the
    transport decides how it ends. *)
Definition call_request (c : AsyncClient) (method url : string) (kwargs : Kwargs)
    (st : State) : Completion PyException Response * State :=
  let r := {| req_method := method; req_url := url; req_kwargs := kwargs |} in
  (transport st (call_count st) c r, emit (EvRequest c r) st).

(** How the [for] loop of [_send_request] is left. *)
Inductive LoopExit : Type :=
| Return_ (res : Result Response string)
| Propagate (e : PyException)
| Exhausted (last_error : string).

(** The retry loop of lines 225 to 236, over the attempt numbers still to
    run. An exception raised inside the [except] clause leaves the loop
    and the function. *)
Fixpoint retry_loop (c : AsyncClient) (method url : string) (kwargs : Kwargs)
    (attempts : list Z) (last_error : string) (st : State) : LoopExit * State :=
  match attempts with
  | [] => (Exhausted last_error, st)
  | attempt :: rest =>
      let cfg := config (self st) in
      match call_request c method url kwargs st with
      | (Returns response, st1) => (Return_ (Ok response), st1)
      | (Raises e, st1) =>
          if except_matches (retryable_exceptions cfg) e then
            match
              log DEBUG
                (Text ("Retry attempt " +:+ str_int (attempt + 1) +:+ "/"
                       +:+ str_int (max_retries cfg) +:+ ": "
                       +:+ upper method +:+ " -> " +:+ url)) st1
            with
            | (Raises e', st2) => (Propagate e', st2)
            | (Returns _, st2) =>
                let last_error' :=
                  if attempt =? max_retries cfg - 1 then exc_str e else last_error in
                retry_loop c method url kwargs rest last_error' st2
            end
          else (Propagate e, st1)
      end
  end.

Definition error_message (method url : string) (retries : Z) (last_error : string)
    : string :=
  "Failed to " +:+ upper method +:+ " " +:+ url +:+ " after "
    +:+ str_int retries +:+ " attempts: " +:+ last_error.

(** [HTTPClient._send_request]: the pooled client, the bound method, the
    logging statement of line 221, the loop, and the two statements after
    the loop. *)
Definition _send_request (method url : string) (kwargs : Kwargs) (st : State)
    : Completion PyException (Result Response string) * State :=
  let '(client, st1) := get_client st in
  if negb (existsb (String.eqb method) client_verbs) then
    (Raises (AttributeError method), st1)
  else
    match log DEBUG (Sending (upper method) url kwargs) st1 with
    | (Raises e, st2) => (Raises e, st2)
    | (Returns _, st2) =>
        let cfg := config (self st2) in
        match retry_loop client method url kwargs (range (max_retries cfg)) "" st2 with
        | (Return_ res, st3) => (Returns res, st3)
        | (Propagate e, st3) => (Raises e, st3)
        | (Exhausted last_error, st3) =>
            let msg := error_message method url (max_retries cfg) last_error in
            match log ERROR (Text msg) st3 with
            | (Raises e, st4) => (Raises e, st4)
            | (Returns _, st4) => (Returns (Err msg), st4)
            end
        end
    end.

(** [HTTPClient.get]. *)
Definition get (url : string) (headers : PyValue) (timeout : option Z)
    (st : State) :=
  _send_request "get" url
    [("headers", headers);
     ("timeout", PyInt (or_int timeout (default_timeout (config (self st)))))] st.

(** [HTTPClient.post]. *)
Definition post (url : string) (data json headers : PyValue) (timeout : option Z)
    (st : State) :=
  _send_request "post" url
    [("data", data); ("json", json); ("headers", headers);
     ("timeout", PyInt (or_int timeout (default_timeout (config (self st)))))] st.

(** [HTTPClient.put]. *)
Definition put (url : string) (data json headers : PyValue) (timeout : option Z)
    (st : State) :=
  _send_request "put" url
    [("data", data); ("json", json); ("headers", headers);
     ("timeout", PyInt (or_int timeout (default_timeout (config (self st)))))] st.

(** [HTTPClient.delete]. *)
Definition delete (url : string) (headers : PyValue) (timeout : option Z)
    (st : State) :=
  _send_request "delete" url
    [("headers", headers);
     ("timeout", PyInt (or_int timeout (default_timeout (config (self st)))))] st.

End Http.


(* ===================================================================== *)
(** ** app/services/settings.py *)
(* ===================================================================== *)
Module Settings.

(** [class Environment(str, Enum)]. *)
Inductive Environment : Type := DEVELOPMENT | TESTING | STAGING | PRODUCTION.

#[global] Instance Environment_eq_dec : EqDecision Environment.
Proof. solve_decision. Defined.

Definition Environment_value (e : Environment) : string :=
  match e with
  | DEVELOPMENT => "development"
  | TESTING => "testing"
  | STAGING => "staging"
  | PRODUCTION => "production"
  end.

(** [Environment(v)]: the member whose value is [v], if any. *)
Definition Environment_of (v : string) : option Environment :=
  if String.eqb v "development" then Some DEVELOPMENT
  else if String.eqb v "testing" then Some TESTING
  else if String.eqb v "staging" then Some STAGING
  else if String.eqb v "production" then Some PRODUCTION
  else None.

(** The settings classes. *)
Inductive SettingsClass : Type :=
| BaseAppSettings
| DevelopmentSettings
| TestingSettings
| StagingSettings
| ProductionSettings.

(** An argument of [create]: [None], a [str] or a [pathlib.Path] (held by
    the text [str] gives for it). *)
Inductive Arg : Type :=
| ArgNone
| ArgStr (s : string)
| ArgPath (p : string).

#[global] Instance Arg_eq_dec : EqDecision Arg.
Proof. solve_decision. Defined.

(** Truth value of an argument: [None] and the empty string are falsy. *)
Definition truthy (a : Arg) : bool :=
  match a with
  | ArgNone => false
  | ArgStr s => negb (String.eqb s "")
  | ArgPath _ => true
  end.

Definition str_arg (a : Arg) : string :=
  match a with
  | ArgNone => "None"
  | ArgStr s => s
  | ArgPath p => p
  end.

(** A settings instance as the constructor of its class returns it: its
    class, its identity and its validated fields, [ENVIRONMENT] a member
    of the enum. [TESTING_flag] is the field [TESTING] that only
    [TestingSettings] declares. An instance whose attributes were assigned
    afterwards holds whatever was assigned; [TestSettings.Instance] is the
    type of those. *)
Record SettingsObject : Type := {
  class_of : SettingsClass;
  oid : nat;
  DEBUG : bool;
  HOST : string;
  PORT : Z;
  API_PREFIX : string;
  CORS_ALLOW_ALL_ORIGINS : bool;
  PROJECT_NAME : string;
  PROJECT_VERSION : string;
  ENVIRONMENT : Environment;
  TESTING_flag : option bool
}.

Definition is_development (s : SettingsObject) : bool :=
  bool_decide (ENVIRONMENT s = DEVELOPMENT).
Definition is_testing (s : SettingsObject) : bool :=
  bool_decide (ENVIRONMENT s = TESTING).
Definition is_staging (s : SettingsObject) : bool :=
  bool_decide (ENVIRONMENT s = STAGING).
Definition is_production (s : SettingsObject) : bool :=
  bool_decide (ENVIRONMENT s = PRODUCTION).

Definition api_url (s : SettingsObject) : string :=
  "http://" +:+ HOST s +:+ ":" +:+ str_int (PORT s) +:+ API_PREFIX s.

(** What the process finds around it when a settings class is
    instantiated: [os.environ]; the dotenv files by path, each parsed into
    its key/value pairs; and the installed pydantic's reading of a text as
    an [int], which is the library's to define (it takes more than plain
    decimals, a leading plus sign for one). *)
Record Ambient : Type := {
  environ : gmap string string;
  dotenv_files : gmap string (gmap string string);
  int_of_str : string -> option Z
}.

(** *** pydantic-settings: where a field value comes from

    [BaseSettings.__init__] takes each field from the first source that has
    it: the keyword arguments of the call, then the process environment,
    then the dotenv file ([_env_file] if passed, else [Config.env_file]),
    then the default of the class. Names are matched exactly
    ([case_sensitive = True]). A field with an alias is looked up under the
    alias and, as [populate_by_name = True], under its own name as well:
    each source is asked for the alias first, then for the name. Keys that
    are no field are ignored ([extra = "ignore"]). *)

Definition Config_env_file : string := ".env".

Definition env_file_of (kwargs : gmap string Arg) : string :=
  match kwargs !! "_env_file" with
  | Some a => str_arg a
  | None => Config_env_file
  end.

Definition source_value (kwargs : gmap string Arg) (amb : Ambient) (name : string)
    : option Arg :=
  match kwargs !! name with
  | Some a => Some a
  | None =>
      match environ amb !! name with
      | Some v => Some (ArgStr v)
      | None =>
          match dotenv_files amb !! env_file_of kwargs with
          | Some file => ArgStr <$> file !! name
          | None => None
          end
      end
  end.

(** The first of [names] a source has a value for. *)
Fixpoint first_supplied {A : Type} (names : list string) (m : gmap string A)
    : option A :=
  match names with
  | [] => None
  | name :: rest =>
      match m !! name with
      | Some v => Some v
      | None => first_supplied rest m
      end
  end.

(** The value of a field that goes by several names ([HOST], alias
    [API_HOST]; [PORT], alias [API_PORT]). *)
Definition source_value_any (kwargs : gmap string Arg) (amb : Ambient)
    (names : list string) : option Arg :=
  match first_supplied names kwargs with
  | Some a => Some a
  | None =>
      match first_supplied names (environ amb) with
      | Some v => Some (ArgStr v)
      | None =>
          match dotenv_files amb !! env_file_of kwargs with
          | Some file => ArgStr <$> first_supplied names file
          | None => None
          end
      end
  end.

(** *** pydantic: validation of a supplied value against the field type *)

Definition lower_ascii (c : ascii) : ascii :=
  let n := nat_of_ascii c in
  if (65 <=? n)%nat && (n <=? 90)%nat then ascii_of_nat (n + 32) else c.

Fixpoint lower (s : string) : string :=
  match s with
  | EmptyString => EmptyString
  | String c s' => String (lower_ascii c) (lower s')
  end.

(** [bool] from text: the accepted spellings, compared in lower case. *)
Definition parse_bool (s : string) : option bool :=
  let l := lower s in
  if existsb (String.eqb l) ["1"; "on"; "t"; "true"; "y"; "yes"] then Some true
  else if existsb (String.eqb l) ["0"; "off"; "f"; "false"; "n"; "no"] then Some false
  else None.

(** A reading of texts as [int] that takes plain signed decimals and
    nothing else: what the examples below run with. *)
Definition decimal (s : string) : option Z :=
  Z.of_int <$> NilZero.int_of_string s.

Definition validate_bool (a : Arg) : option bool :=
  match a with ArgStr s => parse_bool s | _ => None end.

Definition validate_int (amb : Ambient) (a : Arg) : option Z :=
  match a with ArgStr s => int_of_str amb s | _ => None end.

Definition validate_str (a : Arg) : option string :=
  match a with ArgStr s => Some s | _ => None end.

Definition validate_Environment (a : Arg) : option Environment :=
  match a with ArgStr s => Environment_of s | _ => None end.

(** A field: the supplied value validated, or the default when no source
    supplies one; [None] when validation fails. *)
Definition field {A : Type} (validate : Arg -> option A) (dflt : A)
    (kwargs : gmap string Arg) (amb : Ambient) (name : string) : option A :=
  match source_value kwargs amb name with
  | Some a => validate a
  | None => Some dflt
  end.

(** The same for a field that goes by several names. *)
Definition field_any {A : Type} (validate : Arg -> option A) (dflt : A)
    (kwargs : gmap string Arg) (amb : Ambient) (names : list string) : option A :=
  match source_value_any kwargs amb names with
  | Some a => validate a
  | None => Some dflt
  end.

(** *** The defaults the classes declare *)

Definition DEBUG_default (cls : SettingsClass) : bool :=
  match cls with
  | BaseAppSettings => false
  | DevelopmentSettings => true
  | TestingSettings => true
  | StagingSettings => false
  | ProductionSettings => false
  end.

Definition CORS_ALLOW_ALL_ORIGINS_default (cls : SettingsClass) : bool :=
  match cls with
  | BaseAppSettings => false
  | DevelopmentSettings => true
  | TestingSettings => false
  | StagingSettings => false
  | ProductionSettings => false
  end.

(** Why a call did not return. *)
Inductive Error : Type :=
| ValidationError (cls : SettingsClass)
| TypeError.

(** The cache key [lru_cache] makes of a call of [create]: the positional
    arguments after [cls], and the keyword arguments in the order written.
    [create()], [create(None, None)] and
    [create(env_file=None, environment=None)] make three different keys. *)
Record Key : Type := {
  k_args : list Arg;
  k_kwargs : list (string * Arg)
}.

#[global] Instance Key_eq_dec : EqDecision Key.
Proof. solve_decision. Defined.

(** The process-wide state: the cache of [create], most recently used
    first; the allocator of instance identities; and how many times the
    settings sources were read. *)
Record State : Type := {
  cache : list (Key * SettingsObject);
  next_oid : nat;
  reads : nat
}.

Definition initial_state : State := {| cache := []; next_oid := 0; reads := 0 |}.

(** Instantiating a settings class with keyword arguments: the sources are read, every field
    is validated, and a new instance comes out, or a validation error. *)
Definition instantiate (cls : SettingsClass) (kwargs : gmap string Arg)
    (amb : Ambient) (st : State) : Completion Error SettingsObject * State :=
  let st1 := {| cache := cache st; next_oid := next_oid st; reads := S (reads st) |} in
  match field validate_bool (DEBUG_default cls) kwargs amb "DEBUG",
        field_any validate_str "127.0.0.1" kwargs amb ["API_HOST"; "HOST"],
        field_any (validate_int amb) 8000 kwargs amb ["API_PORT"; "PORT"],
        field validate_str "/api" kwargs amb "API_PREFIX",
        field validate_bool (CORS_ALLOW_ALL_ORIGINS_default cls) kwargs amb
          "CORS_ALLOW_ALL_ORIGINS",
        field validate_str "HamkeeFastAPI" kwargs amb "PROJECT_NAME",
        field validate_str "2025.01" kwargs amb "PROJECT_VERSION",
        field validate_Environment DEVELOPMENT kwargs amb "ENVIRONMENT",
        match cls with
        | TestingSettings => Some <$> field validate_bool true kwargs amb "TESTING"
        | _ => Some None
        end
  with
  | Some debug, Some host, Some port, Some prefix, Some cors, Some name,
    Some version, Some env, Some testing =>
      (Returns {| class_of := cls; oid := next_oid st;
                  DEBUG := debug; HOST := host; PORT := port; API_PREFIX := prefix;
                  CORS_ALLOW_ALL_ORIGINS := cors; PROJECT_NAME := name;
                  PROJECT_VERSION := version; ENVIRONMENT := env;
                  TESTING_flag := testing |},
       {| cache := cache st; next_oid := S (next_oid st); reads := S (reads st) |})
  | _, _, _, _, _, _, _, _, _ => (Raises (ValidationError cls), st1)
  end.

(** [SettingsFactory._env_settings_map]. *)
Definition _env_settings_map : list (Environment * SettingsClass) :=
  [(DEVELOPMENT, DevelopmentSettings);
   (TESTING, TestingSettings);
   (STAGING, StagingSettings);
   (PRODUCTION, ProductionSettings)].

(** [d.get(key, dflt)]. *)
Fixpoint dict_get (d : list (Environment * SettingsClass)) (key : Environment)
    (dflt : SettingsClass) : SettingsClass :=
  match d with
  | [] => dflt
  | (k, v) :: rest => if bool_decide (k = key) then v else dict_get rest key dflt
  end.

(** The body of [SettingsFactory.create], under the [lru_cache]. *)
Definition create_wrapped (env_file environment : Arg) (amb : Ambient) (st : State)
    : Completion Error SettingsObject * State :=
  let base_kwargs : gmap string Arg := ∅ in
  let base_kwargs :=
    if truthy env_file then <["_env_file" := ArgStr (str_arg env_file)]> base_kwargs
    else base_kwargs in
  let base_kwargs :=
    if truthy environment then <["ENVIRONMENT" := environment]> base_kwargs
    else base_kwargs in
  match instantiate BaseAppSettings base_kwargs amb st with
  | (Raises e, st1) => (Raises e, st1)
  | (Returns base_settings, st1) =>
      let environment_enum := ENVIRONMENT base_settings in
      let settings_class :=
        dict_get _env_settings_map environment_enum DevelopmentSettings in
      instantiate settings_class base_kwargs amb st1
  end.

(** *** [functools.lru_cache], as [@lru_cache] applies it: [maxsize=128] *)

Definition maxsize : nat := 128.

Definition cache_get (k : Key) (c : list (Key * SettingsObject))
    : option SettingsObject :=
  snd <$> List.find (fun kv => bool_decide (fst kv = k)) c.

Definition cache_remove (k : Key) (c : list (Key * SettingsObject))
    : list (Key * SettingsObject) :=
  List.filter (fun kv => negb (bool_decide (fst kv = k))) c.

(** A new entry goes in front; a full cache first drops its least recently
    used entry, the last one. *)
Definition cache_put (k : Key) (s : SettingsObject) (c : list (Key * SettingsObject))
    : list (Key * SettingsObject) :=
  if (maxsize <=? List.length c)%nat then (k, s) :: removelast c else (k, s) :: c.

Definition set_cache (c : list (Key * SettingsObject)) (st : State) : State :=
  {| cache := c; next_oid := next_oid st; reads := reads st |}.

(** Binding the arguments of a call to [(env_file, environment)], both
    defaulting to [None]; [None] stands for the [TypeError] of a call the
    signature does not accept. *)
Definition kw_lookup (name : string) (kws : list (string * Arg)) : option Arg :=
  snd <$> List.find (fun p => String.eqb (fst p) name) kws.

Definition bind_arguments (k : Key) : option (Arg * Arg) :=
  let kws := k_kwargs k in
  let names := map fst kws in
  let given name := existsb (String.eqb name) names in
  if negb (forallb (fun n => String.eqb n "env_file" || String.eqb n "environment")
             names)
  then None
  else if negb (bool_decide (NoDup names)) then None
  else
    match k_args k with
    | [] => Some (default ArgNone (kw_lookup "env_file" kws),
                  default ArgNone (kw_lookup "environment" kws))
    | [a] => if given "env_file" then None
             else Some (a, default ArgNone (kw_lookup "environment" kws))
    | [a; b] => if given "env_file" || given "environment" then None
                else Some (a, b)
    | _ => None
    end.

(** [SettingsFactory.create], the cached class method. A hit returns the
    stored instance and marks the entry most recently used; a miss runs the
    body and stores what it returns (nothing when it raises). *)
Definition create (k : Key) (amb : Ambient) (st : State)
    : Completion Error SettingsObject * State :=
  match cache_get k (cache st) with
  | Some s => (Returns s, set_cache ((k, s) :: cache_remove k (cache st)) st)
  | None =>
      match bind_arguments k with
      | None => (Raises TypeError, st)
      | Some (env_file, environment) =>
          match create_wrapped env_file environment amb st with
          | (Raises e, st1) => (Raises e, st1)
          | (Returns s, st1) => (Returns s, set_cache (cache_put k s (cache st1)) st1)
          end
      end
  end.

(** [get_settings]: [SettingsFactory.create(env_file=..., environment=...)]. *)
Definition get_settings (env_file environment : Arg) (amb : Ambient) (st : State)
    : Completion Error SettingsObject * State :=
  create {| k_args := [];
            k_kwargs := [("env_file", env_file); ("environment", environment)] |}
    amb st.

End Settings.

(* ===================================================================== *)
(** ** app/main.py *)
(* ===================================================================== *)
Module Main.

(** The router of [api.urls], by the paths it serves. *)
Record APIRouter : Type := {
  router_paths : list string
}.

(** An entry of the middleware stack: the class and its options. *)
Record Middleware : Type := {
  middleware_class : string;
  allow_origins : list string;
  allow_credentials : bool;
  allow_methods : list string;
  allow_headers : list string
}.

(** The [FastAPI] application object, as far as the bootstrap sets it up. *)
Record FastAPI : Type := {
  debug : bool;
  title : string;
  version : string;
  included_routers : list (APIRouter * string);
  user_middleware : list Middleware
}.

(** [FastAPI(debug=..., title=..., version=...)]. *)
Definition FastAPI_init (debug_arg : bool) (title_arg version_arg : string) : FastAPI :=
  {| debug := debug_arg; title := title_arg; version := version_arg;
     included_routers := []; user_middleware := [] |}.

(** Why the import of the module did not complete: the settings could
    not be made, or FastAPI refused the router. *)
Inductive Error : Type :=
| SettingsError (e : Settings.Error)
| AssertionError (msg : string)
| FastAPIError.

(** [s.startswith(prefix)]. *)
Definition startswith (s prefix : string) : bool :=
  String.eqb (substring 0 (String.length prefix) s) prefix.

(** [s.endswith(suffix)]. *)
Definition endswith (s suffix : string) : bool :=
  let n := String.length s in
  let m := String.length suffix in
  (m <=? n)%nat && String.eqb (substring (n - m) m s) suffix.

(** [application.include_router(router, prefix=prefix)]. FastAPI asserts
    that a prefix, when there is one, starts with a slash and does not end
    with one; without a prefix it refuses a router that has a route with an
    empty path. *)
Definition include_router (router : APIRouter) (prefix : string) (app : FastAPI)
    : Completion Error FastAPI :=
  let mounted :=
    {| debug := debug app; title := title app; version := version app;
       included_routers := included_routers app ++ [(router, prefix)];
       user_middleware := user_middleware app |} in
  if negb (String.eqb prefix "") then
    if negb (startswith prefix "/") then
      Raises (AssertionError "A path prefix must start with '/'")
    else if endswith prefix "/" then
      Raises (AssertionError
                "A path prefix must not end with '/', as the routes will start with '/'")
    else Returns mounted
  else if existsb (String.eqb "") (router_paths router) then Raises FastAPIError
  else Returns mounted.

(** [app.add_middleware(...)]: the new entry goes on top of the stack. *)
Definition add_middleware (m : Middleware) (app : FastAPI) : FastAPI :=
  {| debug := debug app; title := title app; version := version app;
     included_routers := included_routers app;
     user_middleware := m :: user_middleware app |}.

(** [get_application]. *)
Definition get_application (api_router : APIRouter) (settings : Settings.SettingsObject)
    : Completion Error FastAPI :=
  let application :=
    FastAPI_init (Settings.DEBUG settings) (Settings.PROJECT_NAME settings)
      (Settings.PROJECT_VERSION settings) in
  include_router api_router (Settings.API_PREFIX settings) application.

(** A line logged through a [Logger]. *)
Record LogRecord : Type := {
  logger_name : string;
  levelname : string;
  message : string
}.

(** [logger.info(message)] on the logger [create_logger(name=name)] made. *)
Definition info (name msg : string) (logs : list LogRecord) : list LogRecord :=
  logs ++ [{| logger_name := name; levelname := "INFO"; message := msg |}].

(** The middleware the module attaches when CORS is open to all origins. *)
Definition CORSMiddleware_wildcard : Middleware :=
  {| middleware_class := "CORSMiddleware";
     allow_origins := ["*"];
     allow_credentials := true;
     allow_methods := ["*"];
     allow_headers := ["*"] |}.

(** The module body from the settings on: [logger], [app] and the CORS
    branch. When [get_application] returns, it yields the module's [app]
    and the lines logged. *)
Definition module_body (api_router : APIRouter) (app_settings : Settings.SettingsObject)
    : Completion Error (FastAPI * list LogRecord) :=
  let logger := "main" in
  match get_application api_router app_settings with
  | Raises e => Raises e
  | Returns app =>
      if Settings.CORS_ALLOW_ALL_ORIGINS app_settings then
        Returns (add_middleware CORSMiddleware_wildcard app,
                 info logger "CORS allowed for all origins." [])
      else
        Returns (app, info logger "CORS not allowed for all origins." [])
  end.

(** Importing the module: [settings.get_settings()], then the body. *)
Definition import_module (api_router : APIRouter) (amb : Settings.Ambient)
    (st : Settings.State)
    : Completion Error (FastAPI * list LogRecord) * Settings.State :=
  match Settings.get_settings Settings.ArgNone Settings.ArgNone amb st with
  | (Raises e, st1) => (Raises (SettingsError e), st1)
  | (Returns app_settings, st1) => (module_body api_router app_settings, st1)
  end.

End Main.

(* ===================================================================== *)
(** ** app/services/http.py, the module level *)
(* ===================================================================== *)
Module HttpDefault.

(** [default_config = HTTPClientConfig()]. *)
Definition default_config : Http.HTTPClientConfig :=
  Http.HTTPClientConfig_init None None None None.

(** [default_client = HTTPClient(config=default_config)]. *)
Definition default_client : Http.HTTPClient :=
  Http.HTTPClient_init None (Some default_config).

(** The module right after import, in a world with the given transport. *)
Definition at_import (t : Http.Transport) : Http.State :=
  {| Http.self := default_client; Http.events := []; Http.next_id := 0;
     Http.transport := t |}.

(** The convenience functions: each hands its arguments to the method of
    the same name of [default_client]. *)
Definition get (url : string) (headers : PyValue) (timeout : option Z)
    (st : Http.State) :=
  Http.get url headers timeout st.

Definition post (url : string) (data json headers : PyValue) (timeout : option Z)
    (st : Http.State) :=
  Http.post url data json headers timeout st.

Definition put (url : string) (data json headers : PyValue) (timeout : option Z)
    (st : Http.State) :=
  Http.put url data json headers timeout st.

Definition delete (url : string) (headers : PyValue) (timeout : option Z)
    (st : Http.State) :=
  Http.delete url headers timeout st.



End HttpDefault.

(* ===================================================================== *)
(** ** app/services/settings.py, continued: [as_dict] and
       [SettingsFactory.get_test_settings] *)
(* ===================================================================== *)
Module TestSettings.

(** A value an attribute of a settings instance can hold. Assignment does
    not validate, so any of them can sit under any name. *)
Inductive AttrValue : Type :=
| VNone
| VBool (b : bool)
| VInt (z : Z)
| VStr (s : string)
| VEnvironment (e : Settings.Environment).

(** [BaseAppSettings.as_dict]: the fields under their names (not their
    aliases). *)
Definition as_dict (s : Settings.SettingsObject) : gmap string AttrValue :=
  let d : gmap string AttrValue :=
    {[ "DEBUG" := VBool (Settings.DEBUG s);
       "HOST" := VStr (Settings.HOST s);
       "PORT" := VInt (Settings.PORT s);
       "API_PREFIX" := VStr (Settings.API_PREFIX s);
       "CORS_ALLOW_ALL_ORIGINS" := VBool (Settings.CORS_ALLOW_ALL_ORIGINS s);
       "PROJECT_NAME" := VStr (Settings.PROJECT_NAME s);
       "PROJECT_VERSION" := VStr (Settings.PROJECT_VERSION s);
       "ENVIRONMENT" := VEnvironment (Settings.ENVIRONMENT s) ]} in
  match Settings.TESTING_flag s with
  | Some b => <["TESTING" := VBool b]> d
  | None => d
  end.

(** A settings instance that has been assigned to: its class and identity,
    its fields, and the plain attributes set beside them. *)
Record Instance : Type := {
  instance_class : Settings.SettingsClass;
  instance_oid : nat;
  fields : gmap string AttrValue;
  plain_attributes : gmap string AttrValue
}.

Definition Instance_of (s : Settings.SettingsObject) : Instance :=
  {| instance_class := Settings.class_of s; instance_oid := Settings.oid s;
     fields := as_dict s; plain_attributes := ∅ |}.

(** Why [get_test_settings] did not return. *)
Inductive Error : Type :=
| Construction (e : Settings.Error)
| Refused (name : string).

Definition starts_with_underscore (name : string) : bool :=
  match name with
  | String c _ => Ascii.eqb c "_"
  | EmptyString => false
  end.

(** [setattr(instance, name, value)] on a pydantic model: a name with a
    leading underscore becomes a plain attribute; a field takes the value
    as it is; any other name (a property, or no attribute of the model at
    all) is refused with an exception. *)
Definition setattr (name : string) (value : AttrValue) (i : Instance)
    : Completion Error Instance :=
  if starts_with_underscore name then
    Returns {| instance_class := instance_class i; instance_oid := instance_oid i;
               fields := fields i;
               plain_attributes := <[name := value]> (plain_attributes i) |}
  else
    match fields i !! name with
    | Some _ =>
        Returns {| instance_class := instance_class i; instance_oid := instance_oid i;
                   fields := <[name := value]> (fields i);
                   plain_attributes := plain_attributes i |}
    | None => Raises (Refused name)
    end.

(** [for key, value in override_values.items(): setattr(...)]. *)
Fixpoint apply_overrides (override_values : list (string * AttrValue)) (i : Instance)
    : Completion Error Instance :=
  match override_values with
  | [] => Returns i
  | (key, value) :: rest =>
      match setattr key value i with
      | Returns i' => apply_overrides rest i'
      | Raises e => Raises e
      end
  end.

(** [SettingsFactory.get_test_settings]. The keyword argument is the enum
    member [Environment.TESTING], a [str] of value ["testing"]. *)
Definition get_test_settings (override_values : list (string * AttrValue))
    (amb : Settings.Ambient) (st : Settings.State)
    : Completion Error Instance * Settings.State :=
  match Settings.instantiate Settings.TestingSettings
          {[ "ENVIRONMENT" := Settings.ArgStr (Settings.Environment_value Settings.TESTING) ]}
          amb st with
  | (Raises e, st1) => (Raises (Construction e), st1)
  | (Returns test_settings, st1) =>
      (apply_overrides override_values (Instance_of test_settings), st1)
  end.

End TestSettings.

(* ===================================================================== *)
(** ** app/services/logger.py *)
(* ===================================================================== *)
Module Logger.

(** [LogLevel = Union[str, int]]. *)
Inductive LogLevel : Type :=
| LevelName (name : string)
| LevelNo (no : Z).

(** A sink: a path given as [str], a path given as [pathlib.Path], a
    path given as another [os.PathLike] object (a [PurePath], say), a
    coroutine function, or any other object ([sys.stderr], a plain
    callable, a logging handler, ...), the last two held by a name. *)
Inductive Sink : Type :=
| PathStr (p : string)
| PathObj (p : string)
| PathLike (p : string)
| Coroutine (name : string)
| Object (name : string).

(** [isinstance(sink, (str, Path))], the test of [Logger.__init__]. *)
Definition is_path (s : Sink) : bool :=
  match s with
  | PathStr _ | PathObj _ => true
  | PathLike _ | Coroutine _ | Object _ => false
  end.

(** [isinstance(sink, (str, PathLike))], the test by which loguru's [add]
    takes a sink for a file. *)
Definition is_file_sink (s : Sink) : bool :=
  match s with
  | PathStr _ | PathObj _ | PathLike _ => true
  | Coroutine _ | Object _ => false
  end.

(** [LoggerConfig]. *)
Record LoggerConfig : Type := {
  level : LogLevel;
  format : string;
  sink : Sink;
  rotation : option string;
  retention : option string;
  compression : option string
}.

(** [LoggerConfig.__init__] with its defaults. *)
Definition LoggerConfig_init (level_arg : option LogLevel) (format_arg : option string)
    (sink_arg : option Sink) (rotation_arg retention_arg compression_arg : option string)
    : LoggerConfig :=
  {| level := default (LevelName "INFO") level_arg;
     format := default "{time} | {level} | {message}" format_arg;
     sink := default (Object "sys.stderr") sink_arg;
     rotation := rotation_arg;
     retention := retention_arg;
     compression := compression_arg |}.

(** A call of loguru's [logger.add]: the sink, the level, the format and
    the further keyword arguments as written (a value may be [None]). The
    handler it installs is kept as the call that made it. *)
Record AddCall : Type := {
  add_sink : Sink;
  add_level : LogLevel;
  add_format : string;
  add_kwargs : list (string * option string)
}.

(** *** loguru: the process-wide handler registry

    [logger] of loguru is one object for the whole process. [add] takes the
    next handler id, which is used up even when the call then fails.
    Further keyword arguments configure a file sink, and [loop] a coroutine
    sink; any other is refused with [TypeError]. [add] may also fail for
    reasons of its own (an unknown level, a file that cannot be opened, a
    rotation it cannot parse), which [add_fails] stands for.
    [remove()] drops every handler; [remove(id)] raises [ValueError] when
    there is no handler [id]. *)
Record Core : Type := {
  handlers : gmap nat AddCall;
  handlers_count : nat;
  add_fails : AddCall -> option PyException
}.

Definition TypeError (msg : string) : PyException :=
  {| exc_mro := ["TypeError"; "Exception"; "BaseException"; "object"];
     exc_str := msg |}.

Definition ValueError (msg : string) : PyException :=
  {| exc_mro := ["ValueError"; "Exception"; "BaseException"; "object"];
     exc_str := msg |}.

Definition with_handlers (h : gmap nat AddCall) (n : nat) (core : Core) : Core :=
  {| handlers := h; handlers_count := n; add_fails := add_fails core |}.

(** The keyword arguments [add] has no use for: a file sink takes them
    all, a coroutine sink takes [loop]. *)
Definition unexpected_kwargs (call : AddCall) : list (string * option string) :=
  match add_sink call with
  | PathStr _ | PathObj _ | PathLike _ => []
  | Coroutine _ =>
      List.filter (fun kv => negb (String.eqb (fst kv) "loop")) (add_kwargs call)
  | Object _ => add_kwargs call
  end.

Definition loguru_add (call : AddCall) (core : Core) : Completion PyException nat * Core :=
  let handler_id := handlers_count core in
  let core1 := with_handlers (handlers core) (S handler_id) core in
  match unexpected_kwargs call with
  | (name, _) :: _ =>
      (Raises (TypeError ("add() got an unexpected keyword argument '" +:+ name +:+ "'")),
       core1)
  | [] =>
      match add_fails core call with
      | Some e => (Raises e, core1)
      | None =>
          (Returns handler_id,
           with_handlers (<[handler_id := call]> (handlers core)) (S handler_id) core)
      end
  end.

Definition loguru_remove_all (core : Core) : Core :=
  with_handlers ∅ (handlers_count core) core.

Definition loguru_remove (handler_id : nat) (core : Core)
    : Completion PyException unit * Core :=
  match handlers core !! handler_id with
  | Some _ =>
      (Returns tt, with_handlers (base.delete handler_id (handlers core))
                     (handlers_count core) core)
  | None =>
      (Raises (ValueError ("There is no existing handler with id "
                           +:+ str_int (Z.of_nat handler_id))), core)
  end.

(** *** [class Logger] *)

Record Logger : Type := {
  config : LoggerConfig;
  _handler_id : nat
}.

(** Truth value of an optional string: [None] and [""] are falsy. *)
Definition truthy_str (o : option string) : bool :=
  match o with
  | Some s => negb (String.eqb s "")
  | None => false
  end.

(** The [kwargs] dictionary [Logger.__init__] prepares. *)
Definition init_kwargs (cfg : LoggerConfig) : list (string * option string) :=
  if is_path (sink cfg) then
    (if truthy_str (rotation cfg) then [("rotation", rotation cfg)] else [])
    ++ (if truthy_str (retention cfg) then [("retention", retention cfg)] else [])
    ++ (if truthy_str (compression cfg) then [("compression", compression cfg)] else [])
  else [].

(** [Logger.__init__]. *)
Definition Logger_init (config_arg : option LoggerConfig) (core : Core)
    : Completion PyException Logger * Core :=
  let core1 := loguru_remove_all core in
  let cfg := default (LoggerConfig_init None None None None None None) config_arg in
  let kwargs := init_kwargs cfg in
  match loguru_add {| add_sink := sink cfg; add_level := level cfg;
                      add_format := format cfg; add_kwargs := kwargs |} core1 with
  | (Returns handler_id, core2) =>
      (Returns {| config := cfg; _handler_id := handler_id |}, core2)
  | (Raises e, core2) => (Raises e, core2)
  end.

(** [Logger.add_handler]. *)
Definition add_handler (sink_arg : Sink) (level_arg : option LogLevel)
    (format_arg : option string) (kwargs : list (string * option string))
    (self : Logger) (core : Core) : Completion PyException nat * Core :=
  let format_str := if truthy_str format_arg then default "" format_arg
                    else format (config self) in
  loguru_add {| add_sink := sink_arg;
                add_level := default (LevelName "DEBUG") level_arg;
                add_format := format_str; add_kwargs := kwargs |} core.

(** [Logger.remove_handler]. *)
Definition remove_handler (handler_id : nat) (self : Logger) (core : Core)
    : Completion PyException unit * Core :=
  loguru_remove handler_id core.

Definition set_config_level (l : LogLevel) (cfg : LoggerConfig) : LoggerConfig :=
  {| level := l; format := format cfg; sink := sink cfg; rotation := rotation cfg;
     retention := retention cfg; compression := compression cfg |}.

(** [Logger.set_level]. The logger object is returned as the call leaves
    it, also when the call raises. *)
Definition set_level (l : LogLevel) (self : Logger) (core : Core)
    : Completion PyException unit * Logger * Core :=
  match loguru_remove (_handler_id self) core with
  | (Raises e, core1) => (Raises e, self, core1)
  | (Returns _, core1) =>
      let self1 := {| config := set_config_level l (config self);
                      _handler_id := _handler_id self |} in
      let cfg := config self1 in
      match loguru_add {| add_sink := sink cfg; add_level := level cfg;
                          add_format := format cfg;
                          add_kwargs := [("rotation", rotation cfg);
                                         ("retention", retention cfg);
                                         ("compression", compression cfg)] |} core1 with
      | (Raises e, core2) => (Raises e, self1, core2)
      | (Returns handler_id, core2) =>
          (Returns tt, {| config := cfg; _handler_id := handler_id |}, core2)
      end
  end.

(** *** [str.replace] *)

Fixpoint starts_with (p s : string) : bool :=
  match p, s with
  | EmptyString, _ => true
  | String a p', String b s' => Ascii.eqb a b && starts_with p' s'
  | String _ _, EmptyString => false
  end.

(** [replace_from old new skip s]: [s.replace(old, new)] for a non-empty
    [old], the first [skip] characters of [s] being the rest of an
    occurrence already replaced. *)
Fixpoint replace_from (old new : string) (skip : nat) (s : string) : string :=
  match s with
  | EmptyString => EmptyString
  | String c s' =>
      match skip with
      | S k => replace_from old new k s'
      | O =>
          if starts_with old s then new +:+ replace_from old new (String.length old - 1) s'
          else String c (replace_from old new 0 s')
      end
  end.

(** With an empty [old], [new] goes before every character and at the end. *)
Fixpoint intersperse (new s : string) : string :=
  match s with
  | EmptyString => new
  | String c s' => new +:+ String c (intersperse new s')
  end.

Definition str_replace (old new s : string) : string :=
  match old with
  | EmptyString => intersperse new s
  | String _ _ => replace_from old new 0 s
  end.

(** *** [class LoggerFactory] *)

Definition default_format : string :=
  "{time:YYYY-MM-DD HH:mm:ss} | {level} | {name}:{function}:{line} | {message}".

(** [LoggerFactory.create]. *)
Definition create (name_arg : option string) (level_arg : option LogLevel)
    (sink_arg : option Sink) (format_arg : option string) (core : Core)
    : Completion PyException Logger * Core :=
  let name := default "app" name_arg in
  let format := match format_arg with None => default_format | Some f => f end in
  let config :=
    LoggerConfig_init (Some (default (LevelName "INFO") level_arg))
      (Some (str_replace "{name}" name format))
      (Some (default (Object "sys.stderr") sink_arg)) None None None in
  Logger_init (Some config) core.

Definition str_path (s : Sink) : string :=
  match s with
  | PathStr p | PathObj p | PathLike p => p
  | Coroutine name | Object name => name
  end.

(** [LoggerFactory.create_file_logger]. *)
Definition create_file_logger (name_arg : option string) (level_arg : option LogLevel)
    (file_path_arg : option Sink) (format_arg : option string)
    (rotation_arg retention_arg compression_arg : option string) (core : Core)
    : Completion PyException Logger * Core :=
  let name := default "app" name_arg in
  let format := match format_arg with None => default_format | Some f => f end in
  let config :=
    LoggerConfig_init (Some (default (LevelName "INFO") level_arg))
      (Some (str_replace "{name}" name format))
      (Some (PathStr (str_path (default (PathStr "logs/app.log") file_path_arg))))
      (Some (default "10 MB" rotation_arg))
      (Some (default "1 week" retention_arg))
      (Some (default "zip" compression_arg)) in
  Logger_init (Some config) core.

End Logger.

(* ===================================================================== *)
(** ** Vocabulary for the statements about the HTTP client *)
(* ===================================================================== *)

(** The pooled client a call made in state [st] works with. *)
Definition pooled (st : Http.State) : Http.AsyncClient := fst (Http.get_client st).

(** A call of one of the four verb methods of [HTTPClient]. *)
Inductive VerbCall : Type :=
| CallGet (url : string) (headers : PyValue) (timeout : option Z)
| CallPost (url : string) (data json headers : PyValue) (timeout : option Z)
| CallPut (url : string) (data json headers : PyValue) (timeout : option Z)
| CallDelete (url : string) (headers : PyValue) (timeout : option Z).

Definition run_verb (vc : VerbCall) (st : Http.State)
    : Completion PyException (Result Http.Response string) * Http.State :=
  match vc with
  | CallGet url headers timeout => Http.get url headers timeout st
  | CallPost url data json headers timeout => Http.post url data json headers timeout st
  | CallPut url data json headers timeout => Http.put url data json headers timeout st
  | CallDelete url headers timeout => Http.delete url headers timeout st
  end.

(** The underlying requests among a list of events. *)
Fixpoint requests_of (evs : list Http.Event) : list (Http.AsyncClient * Http.Request) :=
  match evs with
  | [] => []
  | Http.EvRequest c r :: rest => (c, r) :: requests_of rest
  | _ :: rest => requests_of rest
  end.


(** *** The scenarios of tests/unittests/app/services/test_http.py *)

Definition httpx_ConnectTimeout (msg : string) : PyException :=
  {| exc_mro := ["ConnectTimeout"; "TimeoutException"; "TransportError";
                 "RequestError"; "HTTPError"; "Exception"; "BaseException"; "object"];
     exc_str := msg |}.

Definition httpx_ReadTimeout (msg : string) : PyException :=
  {| exc_mro := ["ReadTimeout"; "TimeoutException"; "TransportError";
                 "RequestError"; "HTTPError"; "Exception"; "BaseException"; "object"];
     exc_str := msg |}.


Definition mock_response : Http.Response :=
  {| Http.status_code := 200; Http.content := "test" |}.

Definition mock_client : Http.AsyncClient :=
  {| Http.client_id := 0; Http.verify := true |}.

(** [HTTPClient(client=mock_client, config=HTTPClientConfig(max_retries=n))]
    in a world whose underlying calls end as [side_effect] says. *)
Definition test_state (n : Z) (side_effect : Http.Transport) : Http.State :=
  {| Http.self := Http.HTTPClient_init (Some mock_client)
                    (Some (Http.HTTPClientConfig_init None (Some n) None None));
     Http.events := []; Http.next_id := 1; Http.transport := side_effect |}.

(** [side_effect = [ConnectTimeout, ReadTimeout, response]]. *)
Definition fails_twice_then_succeeds : Http.Transport := fun n _ _ =>
  match n with
  | O => Raises (httpx_ConnectTimeout "Connection timeout")
  | 1%nat => Raises (httpx_ReadTimeout "Read timeout")
  | _ => Returns mock_response
  end.

(** [side_effect = ConnectTimeout("Connection timeout")]. *)
Definition always_times_out : Http.Transport := fun _ _ _ =>
  Raises (httpx_ConnectTimeout "Connection timeout").


(** [return_value = mock_response]. *)
Definition always_succeeds : Http.Transport := fun _ _ _ => Returns mock_response.

(* ===================================================================== *)
(** ** Vocabulary for the statements about the settings loader *)
(* ===================================================================== *)

(** The dotenv file an invocation of [create] reads. *)
Definition env_file_used (env_file : Settings.Arg) : string :=
  if Settings.truthy env_file then Settings.str_arg env_file
  else Settings.Config_env_file.

(** The text the surroundings supply for a settings key: the process
    environment first, then the dotenv file. *)
Definition supplied (env_file : Settings.Arg) (amb : Settings.Ambient) (name : string)
    : option string :=
  match Settings.environ amb !! name with
  | Some v => Some v
  | None =>
      match Settings.dotenv_files amb !! env_file_used env_file with
      | Some file => file !! name
      | None => None
      end
  end.

(** The value the [ENVIRONMENT] field is validated from: the [environment]
    argument when it is truthy, else what the surroundings supply, else the
    default [development]. *)
Definition effective_environment (env_file environment : Settings.Arg)
    (amb : Settings.Ambient) : Settings.Arg :=
  if Settings.truthy environment then environment
  else Settings.ArgStr (default "development" (supplied env_file amb "ENVIRONMENT")).

(** The class [_env_settings_map] associates to an environment. *)
Definition class_for (e : Settings.Environment) : Settings.SettingsClass :=
  match e with
  | Settings.DEVELOPMENT => Settings.DevelopmentSettings
  | Settings.TESTING => Settings.TestingSettings
  | Settings.STAGING => Settings.StagingSettings
  | Settings.PRODUCTION => Settings.ProductionSettings
  end.

(** The precedence as the specification words it: the explicit argument,
    else the value of the environment file, else [development]. *)
Definition spec_effective_environment (environment : option string)
    (file_value : option string) : string :=
  match environment with
  | Some e => e
  | None => default "development" file_value
  end.

(** The keyword dictionary [create] builds for both instantiations. *)
Definition base_kwargs_of (env_file environment : Settings.Arg)
    : gmap string Settings.Arg :=
  let kw : gmap string Settings.Arg := ∅ in
  let kw := if Settings.truthy env_file
            then <["_env_file" := Settings.ArgStr (Settings.str_arg env_file)]> kw
            else kw in
  if Settings.truthy environment then <["ENVIRONMENT" := environment]> kw else kw.

(** The cache holds at most [maxsize] entries, one per key. *)
Definition cache_ok (st : Settings.State) : Prop :=
  List.NoDup (map fst (Settings.cache st))
  /\ (List.length (Settings.cache st) <= Settings.maxsize)%nat.

(** A sequence of calls of [create], each in the surroundings of its time. *)
Fixpoint run_calls (calls : list (Settings.Key * Settings.Ambient))
    (st : Settings.State) : Settings.State :=
  match calls with
  | [] => st
  | (k, amb) :: rest => run_calls rest (snd (Settings.create k amb st))
  end.

(** The distinct keys other than [k] among a sequence of calls. *)
Definition other_keys (k : Settings.Key)
    (calls : list (Settings.Key * Settings.Ambient)) : list Settings.Key :=
  nodup Settings.Key_eq_dec
    (List.filter (fun k' => negb (bool_decide (k' = k))) (map fst calls)).

(** The key of [get_settings(env_file, environment)]. *)
Definition get_settings_key (env_file environment : Settings.Arg) : Settings.Key :=
  {| Settings.k_args := [];
     Settings.k_kwargs := [("env_file", env_file); ("environment", environment)] |}.

(** *** Surroundings used as examples *)

(** Nothing set at all. *)
Definition bare : Settings.Ambient :=
  {| Settings.environ := ∅; Settings.dotenv_files := ∅;
     Settings.int_of_str := Settings.decimal |}.

(** [.env] holds [ENVIRONMENT=production] and nothing else. *)
Definition production_env_file : Settings.Ambient :=
  {| Settings.environ := ∅;
     Settings.dotenv_files := {[ ".env" := {[ "ENVIRONMENT" := "production" ]} ]};
     Settings.int_of_str := Settings.decimal |}.

(** [.env] holds [ENVIRONMENT=production], [DEBUG=true] and
    [CORS_ALLOW_ALL_ORIGINS=true]. *)
Definition production_with_overrides : Settings.Ambient :=
  {| Settings.environ := ∅;
     Settings.dotenv_files :=
       {[ ".env" := {[ "ENVIRONMENT" := "production"; "DEBUG" := "true";
                       "CORS_ALLOW_ALL_ORIGINS" := "true" ]} ]};
     Settings.int_of_str := Settings.decimal |}.

(** The process environment says [ENVIRONMENT=staging], [.env] says
    [ENVIRONMENT=production]. *)
Definition staging_in_process_environment : Settings.Ambient :=
  {| Settings.environ := {[ "ENVIRONMENT" := "staging" ]};
     Settings.dotenv_files := {[ ".env" := {[ "ENVIRONMENT" := "production" ]} ]};
     Settings.int_of_str := Settings.decimal |}.

(** [n] calls [get_settings(env_file=str(i))], [i = 0 .. n-1]. *)
Definition many_env_files (n : nat) (amb : Settings.Ambient)
    : list (Settings.Key * Settings.Ambient) :=
  map (fun i => (get_settings_key (Settings.ArgStr (str_int (Z.of_nat i))) Settings.ArgNone,
                 amb))
    (seq 0 n).

(** The entry [(k, s)] is in the cache, behind entries whose keys are all
    among [others]. *)
Definition held (k : Settings.Key) (s : Settings.SettingsObject)
    (others : list Settings.Key) (st : Settings.State) : Prop :=
  exists front back,
    Settings.cache st = front ++ (k, s) :: back /\ incl (map fst front) others.

(** The keys, other than [ENVIRONMENT], under which the settings classes
    look their fields up: [HOST] and [PORT] go by their aliases and by
    their own names. *)
Definition other_settings_keys : list string :=
  ["DEBUG"; "API_HOST"; "HOST"; "API_PORT"; "PORT"; "API_PREFIX";
   "CORS_ALLOW_ALL_ORIGINS"; "PROJECT_NAME"; "PROJECT_VERSION"; "TESTING"].

(** *** The application bootstrap *)

(** A prefix FastAPI mounts the router under: one that starts with a slash
    and does not end with one, or none at all for a router without a route
    of empty path. *)
Definition accepted_prefix (router : Main.APIRouter) (prefix : string) : Prop :=
  match prefix with
  | EmptyString => ~ In "" (Main.router_paths router)
  | String c _ => c = "/"%char /\ Main.endswith prefix "/" = false
  end.


(** A router with one route. *)
Definition health_router : Main.APIRouter := {| Main.router_paths := ["/health"] |}.

(* ===================================================================== *)
(** ** Further vocabulary: settings *)
(* ===================================================================== *)

(** [.env] gives [ENVIRONMENT] a name that is no environment. *)
Definition unknown_environment : Settings.Ambient :=
  {| Settings.environ := ∅;
     Settings.dotenv_files := {[ ".env" := {[ "ENVIRONMENT" := "Production" ]} ]};
     Settings.int_of_str := Settings.decimal |}.

(** The process environment sets [ENVIRONMENT=production] and
    [DEBUG=false]. *)
Definition production_process_environment : Settings.Ambient :=
  {| Settings.environ := {[ "ENVIRONMENT" := "production"; "DEBUG" := "false" ]};
     Settings.dotenv_files := ∅;
     Settings.int_of_str := Settings.decimal |}.

(** The name is a field of [TestingSettings]. *)
Definition testing_field (name : string) : bool :=
  existsb (String.eqb name)
    ["DEBUG"; "HOST"; "PORT"; "API_PREFIX"; "CORS_ALLOW_ALL_ORIGINS"; "PROJECT_NAME";
     "PROJECT_VERSION"; "ENVIRONMENT"; "TESTING"].

(** Two instances that differ at most by their identity. *)
Definition same_values (s1 s2 : Settings.SettingsObject) : Prop :=
  Settings.class_of s1 = Settings.class_of s2
  /\ Settings.DEBUG s1 = Settings.DEBUG s2
  /\ Settings.HOST s1 = Settings.HOST s2
  /\ Settings.PORT s1 = Settings.PORT s2
  /\ Settings.API_PREFIX s1 = Settings.API_PREFIX s2
  /\ Settings.CORS_ALLOW_ALL_ORIGINS s1 = Settings.CORS_ALLOW_ALL_ORIGINS s2
  /\ Settings.PROJECT_NAME s1 = Settings.PROJECT_NAME s2
  /\ Settings.PROJECT_VERSION s1 = Settings.PROJECT_VERSION s2
  /\ Settings.ENVIRONMENT s1 = Settings.ENVIRONMENT s2
  /\ Settings.TESTING_flag s1 = Settings.TESTING_flag s2.

(* ===================================================================== *)
(** ** Further vocabulary: the logger *)
(* ===================================================================== *)

(** Handler ids in use are below the next id loguru hands out. *)
Definition core_ok (core : Logger.Core) : Prop :=
  forall i h, Logger.handlers core !! i = Some h -> (i < Logger.handlers_count core)%nat.

(** The [add] call [Logger.__init__] makes for a configuration. *)
Definition init_call (cfg : Logger.LoggerConfig) : Logger.AddCall :=
  {| Logger.add_sink := Logger.sink cfg; Logger.add_level := Logger.level cfg;
     Logger.add_format := Logger.format cfg;
     Logger.add_kwargs := Logger.init_kwargs cfg |}.

(** The [add] call [set_level] makes for a level and a configuration. *)
Definition set_level_call (l : Logger.LogLevel) (cfg : Logger.LoggerConfig)
    : Logger.AddCall :=
  {| Logger.add_sink := Logger.sink cfg; Logger.add_level := l;
     Logger.add_format := Logger.format cfg;
     Logger.add_kwargs := [("rotation", Logger.rotation cfg);
                           ("retention", Logger.retention cfg);
                           ("compression", Logger.compression cfg)] |}.

(** The configuration a logger starts from when [config] is not given. *)
Definition config_or_default (config_arg : option Logger.LoggerConfig)
    : Logger.LoggerConfig :=
  default (Logger.LoggerConfig_init None None None None None None) config_arg.

(** [p] occurs in [s]. *)
Fixpoint occurs (p s : string) : bool :=
  Logger.starts_with p s
  || match s with
     | EmptyString => false
     | String _ s' => occurs p s'
     end.

(** loguru as it is when the process starts: one handler, id 0, on
    [sys.stderr], and an [add] that fails for no reason of its own. *)
Definition loguru_at_start : Logger.Core :=
  {| Logger.handlers :=
       {[ 0%nat := {| Logger.add_sink := Logger.Object "sys.stderr";
                      Logger.add_level := Logger.LevelName "DEBUG";
                      Logger.add_format := "{time} | {level} | {message}";
                      Logger.add_kwargs := [] |} ]};
     Logger.handlers_count := 1;
     Logger.add_fails := fun _ => None |}.

(** [create_logger(name="main")], as [main.py] calls it, at process start. *)
Definition main_logger_run :=
  Logger.create (Some "main") None None None loguru_at_start.

(** [create_file_logger()] with every default, at process start. *)
Definition file_logger_run :=
  Logger.create_file_logger None None None None None None None loguru_at_start.

(* ===================================================================== *)
(** ** The HTTP client: what a call does before its first logging
       statement, and no further *)
(* ===================================================================== *)

(** None of the three methods the module calls on [logger] is a name the
    module app/services/logger.py defines. *)
Lemma logger_module_lacks_level_methods lvl :
  existsb (String.eqb (Http.level_method lvl)) Http.logger_module_names = false.
Proof. destruct lvl; reflexivity. Qed.

Lemma requests_of_app evs1 evs2 :
  requests_of (evs1 ++ evs2) = requests_of evs1 ++ requests_of evs2.
Proof.
  induction evs1 as [|ev evs1 IH]; [reflexivity|].
  destruct ev; simpl; rewrite IH; reflexivity.
Qed.

Lemma call_count_requests st :
  Http.call_count st = List.length (requests_of (Http.events st)).
Proof.
  unfold Http.call_count.
  induction (Http.events st) as [|ev evs IH]; [reflexivity|].
  destruct ev; simpl; rewrite ?IH; reflexivity.
Qed.

(** [get_client] leaves a pooled client in place, the one there was or a
    new one, and sends nothing. *)
Lemma get_client_effect st :
  Http._client (Http.self (snd (Http.get_client st))) = Some (pooled st)
  /\ Http.config (Http.self (snd (Http.get_client st))) = Http.config (Http.self st)
  /\ requests_of (Http.events (snd (Http.get_client st))) = requests_of (Http.events st)
  /\ (forall c, Http._client (Http.self st) = Some c ->
        pooled st = c /\ snd (Http.get_client st) = st)
  /\ (Http._client (Http.self st) = None ->
        pooled st = {| Http.client_id := Http.next_id st;
                       Http.verify := Http.verify_ssl (Http.config (Http.self st)) |}
        /\ Http.events (snd (Http.get_client st))
           = Http.events st ++ [Http.EvNewClient (pooled st)]).
Proof.
  unfold pooled, Http.get_client.
  destruct (Http._client (Http.self st)) as [c|] eqn:Hc; simpl.
  - rewrite Hc. split; [reflexivity|]. split; [reflexivity|]. split; [reflexivity|].
    split; [|discriminate]. intros c' H. injection H as <-. auto.
  - split; [reflexivity|]. split; [reflexivity|].
    split; [rewrite requests_of_app, app_nil_r; reflexivity|].
    split; [discriminate|]. auto.
Qed.

(** A call of [_send_request] with a verb of the pooled client gets as far
    as line 221. *)
Lemma send_request_stops_at_logging method url kwargs st :
  In method Http.client_verbs ->
  Http._send_request method url kwargs st
  = (Raises (Http.module_AttributeError "debug"), snd (Http.get_client st)).
Proof.
  intros Hin. unfold Http._send_request.
  destruct (Http.get_client st) as [client st1].
  assert (Hverb : existsb (String.eqb method) Http.client_verbs = true).
  { apply existsb_exists. exists method. split; [exact Hin | apply String.eqb_refl]. }
  rewrite Hverb. reflexivity.
Qed.

Lemma run_verb_stops_at_logging vc st :
  run_verb vc st
  = (Raises (Http.module_AttributeError "debug"), snd (Http.get_client st)).
Proof.
  destruct vc; simpl; unfold Http.get, Http.post, Http.put, Http.delete;
    apply send_request_stops_at_logging; simpl; tauto.
Qed.

(** [close] with a pooled client: closed, cleared, then the raise of
    line 200. *)
Lemma close_with_client st c :
  Http._client (Http.self st) = Some c ->
  Http.close st
  = (Raises (Http.module_AttributeError "info"),
     Http.set_client None (Http.emit (Http.EvAclose c) st)).
Proof. intros Hc. unfold Http.close. rewrite Hc. reflexivity. Qed.


(** C1. The scenario of [test_max_retries_exceeded]: a client with
    [max_retries = 3] whose every underlying call raises [ConnectTimeout].
    The claim, like the test, has three underlying calls and an [Err] that
    names the method, the URL and the three attempts. The call raises the
    [AttributeError] of [logger.debug] at line 221 instead: not one
    underlying call is made, and no [Result] comes back. *)
Theorem max_retries_exceeded_scenario_raises :
  Http.get "https://example.com" PyNone None (test_state 3 always_times_out)
  = (Raises (Http.module_AttributeError "debug"), test_state 3 always_times_out)
  /\ isinstance (Http.module_AttributeError "debug") "AttributeError" = true
  /\ exc_str (Http.module_AttributeError "debug")
     = "module 'app.services.logger' has no attribute 'debug'"
  /\ Http.call_count (test_state 3 always_times_out) = 0%nat.
Proof.
  split; [apply (run_verb_stops_at_logging (CallGet _ _ _))|].
  split; [reflexivity|]. split; reflexivity.
Qed.

(** C2. The scenario of [test_retry_behavior]: [max_retries = 3], the
    underlying calls raise [ConnectTimeout], then [ReadTimeout], then
    return the response. The claim, like the test, has three underlying
    calls and [Ok] of the response. The call raises the [AttributeError]
    of [logger.debug] at line 221 instead, with no underlying call made;
    the same holds when the first underlying call would succeed. *)
Theorem retry_scenario_raises :
  Http.get "https://example.com" PyNone None (test_state 3 fails_twice_then_succeeds)
  = (Raises (Http.module_AttributeError "debug"),
     test_state 3 fails_twice_then_succeeds)
  /\ Http.call_count (test_state 3 fails_twice_then_succeeds) = 0%nat
  /\ Http.get "https://example.com" PyNone None (test_state 3 always_succeeds)
     = (Raises (Http.module_AttributeError "debug"), test_state 3 always_succeeds)
  /\ Http.call_count (test_state 3 always_succeeds) = 0%nat.
Proof.
  split; [apply (run_verb_stops_at_logging (CallGet _ _ _))|].
  split; [reflexivity|].
  split; [apply (run_verb_stops_at_logging (CallGet _ _ _)) | reflexivity].
Qed.


(** C6. The scenario of [test_close]: [close()] on a client that holds a
    pooled client. The claim, like the test, has [close()] return with
    [_client] cleared and the client usable again afterwards. [close()]
    awaits [aclose()] and clears [_client], then raises the
    [AttributeError] of [logger.info] at line 200. The next verb call does
    create a new pooled client, and raises at line 221 before using it. *)
Theorem close_scenario_raises :
  exists st1 st2,
    Http.close (test_state 5 always_succeeds)
    = (Raises (Http.module_AttributeError "info"), st1)
    /\ Http.events st1 = [Http.EvAclose mock_client]
    /\ Http._client (Http.self st1) = None
    /\ Http.get "https://example.com" PyNone None st1
       = (Raises (Http.module_AttributeError "debug"), st2)
    /\ Http._client (Http.self st2)
       = Some {| Http.client_id := 1; Http.verify := true |}
    /\ Http.events st2
       = [Http.EvAclose mock_client;
          Http.EvNewClient {| Http.client_id := 1; Http.verify := true |}]
    /\ requests_of (Http.events st2) = [].
Proof.
  eexists _, _.
  split; [apply close_with_client; reflexivity|].
  split; [reflexivity|]. split; [reflexivity|].
  split; [apply (run_verb_stops_at_logging (CallGet _ _ _))|].
  split; [reflexivity|]. split; reflexivity.
Qed.

(** C9. A client with [max_retries = 0]. The claim has the call return,
    without raising, the [Err] of zero attempts. The call raises the
    [AttributeError] of [logger.debug] at line 221; the loop over
    [range(0)] and the statements after it are not reached. *)
Theorem zero_retries_scenario_raises :
  Http.get "https://example.com" PyNone None (test_state 0 always_succeeds)
  = (Raises (Http.module_AttributeError "debug"), test_state 0 always_succeeds)
  /\ Http.max_retries (Http.config (Http.self (test_state 0 always_succeeds))) = 0
  /\ Http.call_count (test_state 0 always_succeeds) = 0%nat.
Proof.
  split; [apply (run_verb_stops_at_logging (CallGet _ _ _))|].
  split; reflexivity.
Qed.

(** C10. A verb call with [timeout=0]. The claim has the underlying
    request issued with the default timeout. No underlying request is
    issued, with any timeout: the call raises the [AttributeError] of
    [logger.debug] at line 221. *)
Theorem timeout_zero_scenario_raises :
  exists st',
    Http.get "https://example.com" PyNone (Some 0) (test_state 3 always_succeeds)
    = (Raises (Http.module_AttributeError "debug"), st')
    /\ requests_of (Http.events st') = []
    /\ Http.default_timeout (Http.config (Http.self st')) = 5.
Proof.
  eexists. split; [apply (run_verb_stops_at_logging (CallGet _ _ _))|].
  split; reflexivity.
Qed.

(* ===================================================================== *)
(** ** The settings loader: which class, which values *)
(* ===================================================================== *)

Lemma create_wrapped_unfold env_file environment amb st :
  Settings.create_wrapped env_file environment amb st
  = match Settings.instantiate Settings.BaseAppSettings
            (base_kwargs_of env_file environment) amb st with
    | (Raises e, st1) => (Raises e, st1)
    | (Returns base_settings, st1) =>
        Settings.instantiate
          (Settings.dict_get Settings._env_settings_map
             (Settings.ENVIRONMENT base_settings) Settings.DevelopmentSettings)
          (base_kwargs_of env_file environment) amb st1
    end.
Proof. reflexivity. Qed.

Lemma dict_get_env_settings_map e dflt :
  Settings.dict_get Settings._env_settings_map e dflt = class_for e.
Proof. destruct e; reflexivity. Qed.

Lemma env_file_of_base_kwargs env_file environment :
  Settings.env_file_of (base_kwargs_of env_file environment) = env_file_used env_file.
Proof.
  unfold Settings.env_file_of, base_kwargs_of, env_file_used.
  destruct (Settings.truthy env_file), (Settings.truthy environment);
    simplify_map_eq; reflexivity.
Qed.

(** What the sources give for [ENVIRONMENT]. *)
Lemma source_value_ENVIRONMENT env_file environment amb :
  Settings.field Settings.validate_Environment Settings.DEVELOPMENT
    (base_kwargs_of env_file environment) amb "ENVIRONMENT"
  = Settings.validate_Environment (effective_environment env_file environment amb).
Proof.
  unfold Settings.field, Settings.source_value, effective_environment, supplied.
  rewrite env_file_of_base_kwargs. unfold base_kwargs_of.
  destruct (Settings.truthy env_file), (Settings.truthy environment);
    simplify_map_eq; try reflexivity;
    destruct (Settings.environ amb !! "ENVIRONMENT"); try reflexivity;
    destruct (Settings.dotenv_files amb !! _) as [file|]; try reflexivity;
    destruct (file !! "ENVIRONMENT"); reflexivity.
Qed.

(** What the sources give for a key the call does not pass itself. *)
Lemma source_value_other env_file environment amb name :
  name <> "_env_file" -> name <> "ENVIRONMENT" ->
  Settings.source_value (base_kwargs_of env_file environment) amb name
  = Settings.ArgStr <$> supplied env_file amb name.
Proof.
  intros H1 H2.
  unfold Settings.source_value, supplied.
  rewrite env_file_of_base_kwargs. unfold base_kwargs_of.
  destruct (Settings.truthy env_file), (Settings.truthy environment);
    simplify_map_eq;
    destruct (Settings.environ amb !! name); try reflexivity;
    destruct (Settings.dotenv_files amb !! _) as [file|]; reflexivity.
Qed.

Lemma first_supplied_None {A : Type} names (m : gmap string A) :
  (forall name, In name names -> m !! name = None) ->
  Settings.first_supplied names m = None.
Proof.
  induction names as [|name names IH]; intros H; [reflexivity|].
  simpl. rewrite (H name) by (left; reflexivity).
  apply IH. intros n Hn. apply H. right. exact Hn.
Qed.

Lemma base_kwargs_of_other env_file environment name :
  name <> "_env_file" -> name <> "ENVIRONMENT" ->
  base_kwargs_of env_file environment !! name = None.
Proof.
  intros H1 H2. unfold base_kwargs_of.
  destruct (Settings.truthy env_file), (Settings.truthy environment);
    simplify_map_eq; reflexivity.
Qed.

(** A field that goes by several names, none of which the call passes
    and none of which the surroundings supply, is left to its default. *)
Lemma source_value_any_unsupplied env_file environment amb names :
  (forall name, In name names ->
     name <> "_env_file" /\ name <> "ENVIRONMENT"
     /\ supplied env_file amb name = None) ->
  Settings.source_value_any (base_kwargs_of env_file environment) amb names = None.
Proof.
  intros H. unfold Settings.source_value_any.
  rewrite first_supplied_None.
  2:{ intros name Hin. destruct (H name Hin) as (H1 & H2 & _).
      apply base_kwargs_of_other; assumption. }
  rewrite first_supplied_None.
  2:{ intros name Hin. destruct (H name Hin) as (_ & _ & Hs).
      unfold supplied in Hs. destruct (Settings.environ amb !! name);
        [discriminate | reflexivity]. }
  rewrite env_file_of_base_kwargs.
  destruct (Settings.dotenv_files amb !! env_file_used env_file) as [file|] eqn:Hfile;
    [|reflexivity].
  rewrite first_supplied_None; [reflexivity|].
  intros name Hin. destruct (H name Hin) as (_ & _ & Hs).
  unfold supplied in Hs. rewrite Hfile in Hs.
  destruct (Settings.environ amb !! name); [discriminate | exact Hs].
Qed.

(** An instantiation that returns gives an instance of the class asked
    for, with the fields the sources validate to. *)
Lemma instantiate_Returns cls kwargs amb st s st' :
  Settings.instantiate cls kwargs amb st = (Returns s, st') ->
  Settings.class_of s = cls
  /\ Settings.oid s = Settings.next_oid st
  /\ Settings.field Settings.validate_bool (Settings.DEBUG_default cls) kwargs amb "DEBUG"
     = Some (Settings.DEBUG s)
  /\ Settings.field Settings.validate_bool (Settings.CORS_ALLOW_ALL_ORIGINS_default cls)
       kwargs amb "CORS_ALLOW_ALL_ORIGINS"
     = Some (Settings.CORS_ALLOW_ALL_ORIGINS s)
  /\ Settings.field Settings.validate_Environment Settings.DEVELOPMENT kwargs amb
       "ENVIRONMENT"
     = Some (Settings.ENVIRONMENT s).
Proof.
  unfold Settings.instantiate.
  repeat match goal with
         | |- context [match ?o with Some _ => _ | None => _ end] =>
             destruct o eqn:?; try discriminate
         end.
  intros H. injection H as <- <-. simpl. auto.
Qed.

Lemma instantiate_Raises cls kwargs amb st err st' :
  Settings.instantiate cls kwargs amb st = (Raises err, st') ->
  err = Settings.ValidationError cls.
Proof.
  unfold Settings.instantiate.
  repeat match goal with
         | |- context [match ?o with Some _ => _ | None => _ end] =>
             destruct o eqn:?; try discriminate
         end;
  intros H; injection H as <- <-; reflexivity.
Qed.

Lemma instantiate_bad_ENVIRONMENT cls kwargs amb st :
  Settings.field Settings.validate_Environment Settings.DEVELOPMENT kwargs amb
    "ENVIRONMENT" = None ->
  fst (Settings.instantiate cls kwargs amb st) = Raises (Settings.ValidationError cls).
Proof.
  intros H. unfold Settings.instantiate. rewrite H.
  repeat match goal with
         | |- context [match ?o with Some _ => _ | None => _ end] =>
             destruct o eqn:?
         end; reflexivity.
Qed.

(** C7, as the code has it. The [ENVIRONMENT] value an invocation of
    [create] works with is the first of: the [environment] argument when
    truthy, the process environment variable, the entry of the dotenv
    file, the default [development]. If that value names no environment
    the base instantiation raises its validation error; otherwise the class
    instantiated is the one [_env_settings_map] associates to it, and the
    instance returned has that class and that environment. *)
Theorem create_instantiates_class_of_effective_environment env_file environment amb st :
  match Settings.validate_Environment (effective_environment env_file environment amb) with
  | None =>
      fst (Settings.create_wrapped env_file environment amb st)
      = Raises (Settings.ValidationError Settings.BaseAppSettings)
  | Some e =>
      match fst (Settings.create_wrapped env_file environment amb st) with
      | Returns s => Settings.class_of s = class_for e /\ Settings.ENVIRONMENT s = e
      | Raises err =>
          err = Settings.ValidationError Settings.BaseAppSettings
          \/ err = Settings.ValidationError (class_for e)
      end
  end.
Proof.
  rewrite create_wrapped_unfold.
  pose proof (source_value_ENVIRONMENT env_file environment amb) as Henv.
  destruct (Settings.validate_Environment (effective_environment env_file environment amb))
    as [e|] eqn:He.
  - destruct (Settings.instantiate Settings.BaseAppSettings _ amb st)
      as [[base|err] st1] eqn:Hbase.
    + apply instantiate_Returns in Hbase as (_ & _ & _ & _ & Hb).
      rewrite Henv in Hb. injection Hb as Hb. rewrite <- Hb.
      rewrite dict_get_env_settings_map.
      destruct (Settings.instantiate (class_for e) _ amb st1) as [[s|err] st2] eqn:Hs;
        simpl.
      * apply instantiate_Returns in Hs as (Hc & _ & _ & _ & Hse).
        rewrite Henv in Hse. injection Hse as Hse. auto.
      * apply instantiate_Raises in Hs. auto.
    + apply instantiate_Raises in Hbase. simpl. auto.
  - pose proof (instantiate_bad_ENVIRONMENT Settings.BaseAppSettings
                  (base_kwargs_of env_file environment) amb st Henv) as Hbad.
    destruct (Settings.instantiate Settings.BaseAppSettings _ amb st) as [[base|err] st1];
      simpl in Hbad; [discriminate|].
    exact Hbad.
Qed.

(** The lookup table itself. *)
Lemma env_settings_map_table :
  Settings._env_settings_map
  = [(Settings.DEVELOPMENT, Settings.DevelopmentSettings);
     (Settings.TESTING, Settings.TestingSettings);
     (Settings.STAGING, Settings.StagingSettings);
     (Settings.PRODUCTION, Settings.ProductionSettings)].
Proof. reflexivity. Qed.

(** Where the process environment has no [ENVIRONMENT], the order is the
    one the specification gives: argument, file, default. *)
Lemma effective_environment_without_process_variable env_file amb (e : string) file_value :
  Settings.environ amb !! "ENVIRONMENT" = None ->
  (Settings.dotenv_files amb !! env_file_used env_file) ≫= (.!! "ENVIRONMENT") = file_value ->
  effective_environment env_file Settings.ArgNone amb
  = Settings.ArgStr (spec_effective_environment None file_value)
  /\ (e <> "" ->
      effective_environment env_file (Settings.ArgStr e) amb
      = Settings.ArgStr (spec_effective_environment (Some e) file_value)).
Proof.
  intros Henv Hfile. split.
  - unfold effective_environment, supplied. simpl. rewrite Henv.
    destruct (Settings.dotenv_files amb !! env_file_used env_file); simpl in Hfile;
      rewrite <- Hfile; reflexivity.
  - intros Hne. unfold effective_environment. simpl.
    destruct (String.eqb_spec e ""); [contradiction | reflexivity].
Qed.

(** C7, as stated, fails: with [ENVIRONMENT=staging] in the process
    environment and [ENVIRONMENT=production] in [.env], no argument given,
    the stated order picks the file's [production]; the code instantiates
    [StagingSettings]. *)
Lemma process_environment_beats_env_file :
  spec_effective_environment None (Some "production") = "production"
  /\ exists s st',
       Settings.create_wrapped Settings.ArgNone Settings.ArgNone
         staging_in_process_environment Settings.initial_state = (Returns s, st')
       /\ Settings.ENVIRONMENT s = Settings.STAGING
       /\ Settings.class_of s = Settings.StagingSettings
       /\ Settings.Environment_of (spec_effective_environment None (Some "production"))
          <> Some (Settings.ENVIRONMENT s).
Proof.
  split; [reflexivity|].
  eexists _, _. split; [vm_compute; reflexivity|].
  simpl. repeat split. discriminate.
Qed.

(* ===================================================================== *)
(** ** Production settings *)
(* ===================================================================== *)

Lemma create_wrapped_Returns env_file environment amb st s st' :
  Settings.create_wrapped env_file environment amb st = (Returns s, st') ->
  Settings.class_of s = class_for (Settings.ENVIRONMENT s)
  /\ Settings.field Settings.validate_bool
       (Settings.DEBUG_default (Settings.class_of s))
       (base_kwargs_of env_file environment) amb "DEBUG"
     = Some (Settings.DEBUG s)
  /\ Settings.field Settings.validate_bool
       (Settings.CORS_ALLOW_ALL_ORIGINS_default (Settings.class_of s))
       (base_kwargs_of env_file environment) amb "CORS_ALLOW_ALL_ORIGINS"
     = Some (Settings.CORS_ALLOW_ALL_ORIGINS s).
Proof.
  rewrite create_wrapped_unfold.
  destruct (Settings.instantiate Settings.BaseAppSettings _ amb st)
    as [[base|err] st1] eqn:Hbase; [|discriminate].
  intros Hs.
  apply instantiate_Returns in Hbase as (_ & _ & _ & _ & Hb).
  apply instantiate_Returns in Hs as (Hc & _ & Hd & Hcors & He).
  rewrite dict_get_env_settings_map in Hc, Hd, Hcors.
  assert (Settings.ENVIRONMENT s = Settings.ENVIRONMENT base) as Heq by congruence.
  rewrite Heq, Hc. auto.
Qed.

Lemma create_miss k amb st env_file environment s st' :
  Settings.cache_get k (Settings.cache st) = None ->
  Settings.bind_arguments k = Some (env_file, environment) ->
  Settings.create k amb st = (Returns s, st') ->
  exists st1, Settings.create_wrapped env_file environment amb st = (Returns s, st1).
Proof.
  intros Hmiss Hbind. unfold Settings.create. rewrite Hmiss, Hbind.
  destruct (Settings.create_wrapped env_file environment amb st) as [[s1|err] st1];
    [|discriminate].
  intros H. injection H as <- _. eauto.
Qed.

(** C4, as the code has it. When [create] builds (on a cache miss) and
    returns an instance for the environment [production], the instance is
    a [ProductionSettings]; its [DEBUG] is false unless the process
    environment or the dotenv file supplies [DEBUG], and its
    [CORS_ALLOW_ALL_ORIGINS] is false unless they supply
    [CORS_ALLOW_ALL_ORIGINS]; a supplied value is the one that counts. *)
Theorem production_settings_defaults k amb st env_file environment s st' :
  Settings.cache_get k (Settings.cache st) = None ->
  Settings.bind_arguments k = Some (env_file, environment) ->
  Settings.create k amb st = (Returns s, st') ->
  Settings.ENVIRONMENT s = Settings.PRODUCTION ->
  Settings.class_of s = Settings.ProductionSettings
  /\ (supplied env_file amb "DEBUG" = None -> Settings.DEBUG s = false)
  /\ (supplied env_file amb "CORS_ALLOW_ALL_ORIGINS" = None ->
      Settings.CORS_ALLOW_ALL_ORIGINS s = false)
  /\ (forall v, supplied env_file amb "DEBUG" = Some v ->
        Settings.parse_bool v = Some (Settings.DEBUG s))
  /\ (forall v, supplied env_file amb "CORS_ALLOW_ALL_ORIGINS" = Some v ->
        Settings.parse_bool v = Some (Settings.CORS_ALLOW_ALL_ORIGINS s)).
Proof.
  intros Hmiss Hbind Hcreate Hprod.
  destruct (create_miss _ _ _ _ _ _ _ Hmiss Hbind Hcreate) as (st1 & Hw).
  apply create_wrapped_Returns in Hw as (Hc & Hd & Hcors).
  rewrite Hprod in Hc. simpl in Hc. rewrite Hc in Hd, Hcors.
  unfold Settings.field in Hd, Hcors.
  rewrite source_value_other in Hd by discriminate.
  rewrite source_value_other in Hcors by discriminate.
  split; [exact Hc|].
  repeat split.
  - intros Hn. rewrite Hn in Hd. simpl in Hd. congruence.
  - intros Hn. rewrite Hn in Hcors. simpl in Hcors. congruence.
  - intros v Hv. rewrite Hv in Hd. exact Hd.
  - intros v Hv. rewrite Hv in Hcors. exact Hcors.
Qed.

(** The scenario of the specification: [ENVIRONMENT=production] in [.env]
    and nothing else set. *)
Lemma production_settings_defaults_witness :
  exists s st',
    Settings.get_settings Settings.ArgNone Settings.ArgNone production_env_file
      Settings.initial_state = (Returns s, st')
    /\ Settings.class_of s = Settings.ProductionSettings
    /\ Settings.DEBUG s = false
    /\ Settings.CORS_ALLOW_ALL_ORIGINS s = false.
Proof.
  eexists _, _. split; [vm_compute; reflexivity|].
  match goal with
  | |- Settings.class_of ?s = _ /\ _ =>
      destruct (production_settings_defaults
                  (get_settings_key Settings.ArgNone Settings.ArgNone)
                  production_env_file Settings.initial_state
                  Settings.ArgNone Settings.ArgNone s
                  (snd (Settings.get_settings Settings.ArgNone Settings.ArgNone
                          production_env_file Settings.initial_state)))
        as (Hc & Hd & Hcors & _)
  end.
  - reflexivity.
  - reflexivity.
  - vm_compute. reflexivity.
  - reflexivity.
  - split; [exact Hc|]. split; [apply Hd | apply Hcors]; vm_compute; reflexivity.
Defined.

(** When the surroundings supply [ENVIRONMENT] at most, [create] returns:
    the instance has the class of the effective environment and the
    defaults of that class. *)
Lemma create_wrapped_returns_class_defaults env_file environment amb st e :
  Settings.validate_Environment (effective_environment env_file environment amb) = Some e ->
  (forall name, In name other_settings_keys -> supplied env_file amb name = None) ->
  exists s st',
    Settings.create_wrapped env_file environment amb st = (Returns s, st')
    /\ Settings.class_of s = class_for e
    /\ Settings.ENVIRONMENT s = e
    /\ Settings.DEBUG s = Settings.DEBUG_default (class_for e)
    /\ Settings.CORS_ALLOW_ALL_ORIGINS s
       = Settings.CORS_ALLOW_ALL_ORIGINS_default (class_for e).
Proof.
  intros He Hnone.
  assert (Hfield : forall (A : Type) (validate : Settings.Arg -> option A) dflt name,
             In name other_settings_keys ->
             Settings.field validate dflt (base_kwargs_of env_file environment) amb name
             = Some dflt).
  { intros A validate dflt name Hin. unfold Settings.field.
    rewrite source_value_other.
    - rewrite (Hnone name Hin). reflexivity.
    - intros ->. simpl in Hin. intuition discriminate.
    - intros ->. simpl in Hin. intuition discriminate. }
  assert (Hinst : forall cls st0,
             Settings.instantiate cls (base_kwargs_of env_file environment) amb st0
             = (Returns {| Settings.class_of := cls; Settings.oid := Settings.next_oid st0;
                           Settings.DEBUG := Settings.DEBUG_default cls;
                           Settings.HOST := "127.0.0.1"; Settings.PORT := 8000;
                           Settings.API_PREFIX := "/api";
                           Settings.CORS_ALLOW_ALL_ORIGINS :=
                             Settings.CORS_ALLOW_ALL_ORIGINS_default cls;
                           Settings.PROJECT_NAME := "HamkeeFastAPI";
                           Settings.PROJECT_VERSION := "2025.01";
                           Settings.ENVIRONMENT := e;
                           Settings.TESTING_flag :=
                             match cls with
                             | Settings.TestingSettings => Some true
                             | _ => None
                             end |},
                {| Settings.cache := Settings.cache st0;
                   Settings.next_oid := S (Settings.next_oid st0);
                   Settings.reads := S (Settings.reads st0) |})).
  assert (Hany : forall (A : Type) (validate : Settings.Arg -> option A) dflt names,
             incl names other_settings_keys ->
             Settings.field_any validate dflt (base_kwargs_of env_file environment) amb
               names
             = Some dflt).
  { intros A validate dflt names Hincl. unfold Settings.field_any.
    rewrite source_value_any_unsupplied; [reflexivity|].
    intros name Hin. apply Hincl in Hin.
    split; [intros ->; simpl in Hin; intuition discriminate|].
    split; [intros ->; simpl in Hin; intuition discriminate|].
    apply Hnone. exact Hin. }
  { intros cls st0. unfold Settings.instantiate.
    rewrite source_value_ENVIRONMENT, He.
    rewrite !Hfield by (simpl; tauto).
    rewrite !Hany by (intros name Hin; simpl in Hin |- *; tauto).
    destruct cls; reflexivity. }
  rewrite create_wrapped_unfold, Hinst. cbn [Settings.ENVIRONMENT].
  rewrite dict_get_env_settings_map, Hinst.
  eexists _, _. split; [reflexivity|]. simpl. auto.
Qed.

(** C4, as stated, fails: with [ENVIRONMENT=production] and also
    [DEBUG=true] and [CORS_ALLOW_ALL_ORIGINS=true] in [.env], the instance
    [create] returns for production has both flags true. *)
Lemma production_flags_can_be_overridden :
  exists s st',
    Settings.get_settings Settings.ArgNone (Settings.ArgStr "production")
      production_with_overrides Settings.initial_state = (Returns s, st')
    /\ Settings.class_of s = Settings.ProductionSettings
    /\ Settings.ENVIRONMENT s = Settings.PRODUCTION
    /\ Settings.DEBUG s = true
    /\ Settings.CORS_ALLOW_ALL_ORIGINS s = true.
Proof.
  eexists _, _. split; [vm_compute; reflexivity|].
  simpl. repeat split.
Qed.

(* ===================================================================== *)
(** ** The cache of [create] *)
(* ===================================================================== *)
Section Cache.

Implicit Types (c front back : list (Settings.Key * Settings.SettingsObject)).
Implicit Types (k : Settings.Key) (s : Settings.SettingsObject).

Lemma cache_get_Some k c s :
  Settings.cache_get k c = Some s -> In (k, s) c.
Proof.
  unfold Settings.cache_get.
  destruct (List.find _ c) as [[k' s']|] eqn:Hf; [|discriminate].
  intros H. injection H as <-.
  apply List.find_some in Hf as [Hin Hk].
  apply bool_decide_eq_true in Hk. simpl in Hk. subst k'. exact Hin.
Qed.

Lemma cache_get_None k c :
  Settings.cache_get k c = None -> ~ In k (map fst c).
Proof.
  unfold Settings.cache_get.
  destruct (List.find _ c) as [[k' s']|] eqn:Hf; [discriminate|].
  intros _ Hin. apply List.in_map_iff in Hin as ([k' s'] & Hk & Hin).
  simpl in Hk. subst k'.
  pose proof (List.find_none _ _ Hf _ Hin) as Hfalse. simpl in Hfalse.
  apply bool_decide_eq_false in Hfalse. contradiction.
Qed.

Lemma cache_get_NoDup k s c :
  List.NoDup (map fst c) -> In (k, s) c -> Settings.cache_get k c = Some s.
Proof.
  unfold Settings.cache_get.
  induction c as [|[k' s'] c IH]; simpl; intros Hnd Hin; [contradiction|].
  apply List.NoDup_cons_iff in Hnd as [Hnotin Hnd].
  destruct Hin as [Heq|Hin].
  - injection Heq as -> ->. rewrite bool_decide_eq_true_2 by reflexivity. reflexivity.
  - rewrite bool_decide_eq_false_2.
    + apply IH; assumption.
    + intros ->. apply Hnotin. apply (List.in_map fst) in Hin. exact Hin.
Qed.

Lemma cache_remove_keys k c :
  map fst (Settings.cache_remove k c)
  = List.filter (fun k' => negb (bool_decide (k' = k))) (map fst c).
Proof.
  unfold Settings.cache_remove.
  induction c as [|[k' s'] c IH]; simpl; [reflexivity|].
  destruct (bool_decide (k' = k)); simpl; rewrite IH; reflexivity.
Qed.

Lemma cache_remove_incl k c : incl (map fst (Settings.cache_remove k c)) (map fst c).
Proof.
  rewrite cache_remove_keys. intros k' Hin.
  apply List.filter_In in Hin. tauto.
Qed.

Lemma cache_remove_not_in k c : ~ In k (map fst (Settings.cache_remove k c)).
Proof.
  rewrite cache_remove_keys. intros Hin.
  apply List.filter_In in Hin as [_ Hk].
  rewrite bool_decide_eq_true_2 in Hk by reflexivity. discriminate.
Qed.

Lemma filter_NoDup {A : Type} (f : A -> bool) (l : list A) :
  List.NoDup l -> List.NoDup (List.filter f l).
Proof.
  induction l as [|a l IH]; simpl; intros Hnd; [constructor|].
  apply List.NoDup_cons_iff in Hnd as [Hnotin Hnd].
  destruct (f a); [|auto].
  constructor; [|auto].
  intros Hin. apply List.filter_In in Hin. tauto.
Qed.

Lemma cache_remove_NoDup k c :
  List.NoDup (map fst c) -> List.NoDup (map fst (Settings.cache_remove k c)).
Proof. rewrite cache_remove_keys. apply filter_NoDup. Qed.

Lemma cache_remove_length k s c :
  In (k, s) c -> (S (List.length (Settings.cache_remove k c)) <= List.length c)%nat.
Proof.
  unfold Settings.cache_remove.
  induction c as [|[k' s'] c IH]; simpl; intros Hin; [contradiction|].
  destruct Hin as [Heq|Hin].
  - injection Heq as -> ->. rewrite bool_decide_eq_true_2 by reflexivity. simpl.
    pose proof (List.filter_length_le
                  (fun kv : Settings.Key * Settings.SettingsObject =>
                     negb (bool_decide (fst kv = k))) c).
    lia.
  - specialize (IH Hin). destruct (bool_decide (k' = k)); simpl; lia.
Qed.

Lemma cache_remove_app k c1 c2 :
  Settings.cache_remove k (c1 ++ c2)
  = Settings.cache_remove k c1 ++ Settings.cache_remove k c2.
Proof. apply List.filter_app. Qed.

Lemma removelast_keys_incl c : incl (map fst (removelast c)) (map fst c).
Proof.
  destruct c as [|x c]; [intros k H; exact H|].
  rewrite (List.app_removelast_last x (l := x :: c)) at 2 by discriminate.
  rewrite List.map_app. apply List.incl_appl, List.incl_refl.
Qed.

Lemma removelast_keys_NoDup c :
  List.NoDup (map fst c) -> List.NoDup (map fst (removelast c)).
Proof.
  destruct c as [|x c]; [auto|].
  rewrite (List.app_removelast_last x (l := x :: c)) at 1 by discriminate.
  rewrite List.map_app. apply List.NoDup_app_remove_r.
Qed.

Lemma removelast_length_S c :
  c <> [] -> S (List.length (removelast c)) = List.length c.
Proof.
  induction c as [|x c IH]; intros Hne; [contradiction|].
  destruct c as [|y c]; [reflexivity|].
  change (removelast (x :: y :: c)) with (x :: removelast (y :: c)).
  cbn [List.length]. f_equal. apply IH. discriminate.
Qed.

(** The counters and the cache under the body and the wrapper. *)
Lemma instantiate_cache cls kwargs amb st :
  Settings.cache (snd (Settings.instantiate cls kwargs amb st)) = Settings.cache st.
Proof.
  unfold Settings.instantiate.
  repeat match goal with
         | |- context [match ?o with Some _ => _ | None => _ end] => destruct o
         end; reflexivity.
Qed.

Lemma create_wrapped_cache env_file environment amb st :
  Settings.cache (snd (Settings.create_wrapped env_file environment amb st))
  = Settings.cache st.
Proof.
  rewrite create_wrapped_unfold.
  pose proof (instantiate_cache Settings.BaseAppSettings
                (base_kwargs_of env_file environment) amb st) as H1.
  destruct (Settings.instantiate Settings.BaseAppSettings _ amb st) as [[base|err] st1];
    simpl in H1 |- *; [|exact H1].
  rewrite instantiate_cache. exact H1.
Qed.

Lemma cache_put_ok k s c :
  List.NoDup (map fst c) -> (List.length c <= Settings.maxsize)%nat ->
  ~ In k (map fst c) ->
  List.NoDup (map fst (Settings.cache_put k s c))
  /\ (List.length (Settings.cache_put k s c) <= Settings.maxsize)%nat.
Proof.
  intros Hnd Hlen Hnotin. unfold Settings.cache_put.
  destruct (Nat.leb_spec Settings.maxsize (List.length c)) as [Hfull|Hroom].
  - assert (c <> []) by (intros ->; simpl in Hfull; unfold Settings.maxsize in Hfull; lia).
    split.
    + simpl. constructor.
      * intros Hin. apply Hnotin. apply (removelast_keys_incl c). exact Hin.
      * apply removelast_keys_NoDup. exact Hnd.
    + simpl. rewrite removelast_length_S by assumption. exact Hlen.
  - split.
    + simpl. constructor; assumption.
    + simpl. lia.
Qed.

(** [create] keeps the cache well formed. *)
Lemma create_cache_ok k amb st :
  cache_ok st -> cache_ok (snd (Settings.create k amb st)).
Proof.
  intros [Hnd Hlen]. unfold Settings.create.
  destruct (Settings.cache_get k (Settings.cache st)) as [s|] eqn:Hget.
  - apply cache_get_Some in Hget. unfold cache_ok. simpl. split.
    + constructor; [apply cache_remove_not_in | apply cache_remove_NoDup, Hnd].
    + pose proof (cache_remove_length k s _ Hget). lia.
  - destruct (Settings.bind_arguments k) as [[env_file environment]|];
      [|split; assumption].
    pose proof (create_wrapped_cache env_file environment amb st) as Hc.
    destruct (Settings.create_wrapped env_file environment amb st) as [[s|err] st1];
      simpl in Hc |- *.
    + unfold cache_ok. simpl. rewrite Hc.
      apply cache_put_ok; auto. apply cache_get_None, Hget.
    + unfold cache_ok. rewrite Hc. split; assumption.
Qed.

Lemma run_calls_cache_ok calls : forall st,
  cache_ok st -> cache_ok (run_calls calls st).
Proof.
  induction calls as [|[k amb] calls IH]; intros st Hok; simpl; [exact Hok|].
  apply IH, create_cache_ok, Hok.
Qed.

End Cache.

Section Recency.

Variables (k : Settings.Key) (s : Settings.SettingsObject) (others : list Settings.Key).
Hypothesis few_others : (List.length others < Settings.maxsize)%nat.

(** A call that returns leaves its entry in front. *)
Lemma create_Returns_front amb st st' :
  cache_ok st ->
  Settings.create k amb st = (Returns s, st') ->
  held k s others st'.
Proof.
  intros [Hnd Hlen]. unfold Settings.create.
  destruct (Settings.cache_get k (Settings.cache st)) as [s0|] eqn:Hget.
  - intros H. injection H as <- <-.
    exists [], (Settings.cache_remove k (Settings.cache st)).
    split; [reflexivity | intros x []].
  - destruct (Settings.bind_arguments k) as [[env_file environment]|]; [|discriminate].
    destruct (Settings.create_wrapped env_file environment amb st) as [[s1|err] st1];
      [|discriminate].
    intros H. injection H as <- <-.
    unfold Settings.cache_put. simpl.
    match goal with
    | |- context [if ?b then _ else _] => destruct b
    end; eexists [], _; (split; [reflexivity | intros x []]).
Qed.

(** One more call, for [k] or for one of the [others], does not push the
    entry of [k] out. *)
Lemma create_keeps_held k' amb st :
  cache_ok st -> held k s others st ->
  k' = k \/ In k' others ->
  held k s others (snd (Settings.create k' amb st)).
Proof.
  intros [Hnd Hlen] (front & back & Hc & Hincl) Hk'.
  unfold Settings.create.
  destruct (Settings.cache_get k' (Settings.cache st)) as [v|] eqn:Hget.
  - (* a hit moves the entry of [k'] to the front *)
    simpl. destruct (decide (k' = k)) as [->|Hne].
    + apply cache_get_Some in Hget.
      assert (Hks : Settings.cache_get k (Settings.cache st) = Some s).
      { apply cache_get_NoDup; [exact Hnd|]. rewrite Hc.
        apply List.in_or_app. right. left. reflexivity. }
      rewrite (cache_get_NoDup k v _ Hnd Hget) in Hks. injection Hks as ->.
      exists [], (Settings.cache_remove k (Settings.cache st)).
      split; [reflexivity | intros x []].
    + destruct Hk' as [Heq|Hin]; [contradiction|].
      exists ((k', v) :: Settings.cache_remove k' front), (Settings.cache_remove k' back).
      split.
      * rewrite Hc, cache_remove_app. simpl.
        unfold Settings.cache_remove at 2. simpl.
        rewrite bool_decide_eq_false_2 by congruence. reflexivity.
      * simpl. apply List.incl_cons; [exact Hin|].
        eapply List.incl_tran; [apply cache_remove_incl | exact Hincl].
  - destruct (Settings.bind_arguments k') as [[env_file environment]|];
      [|exists front, back; auto].
    pose proof (create_wrapped_cache env_file environment amb st) as Hcache.
    destruct (Settings.create_wrapped env_file environment amb st) as [[v|err] st1];
      simpl in Hcache |- *; [|exists front, back; rewrite Hcache; auto].
    (* a miss that returns puts a new entry in front *)
    rewrite Hcache.
    apply cache_get_None in Hget.
    assert (Hne : k' <> k).
    { intros ->. apply Hget. rewrite Hc, List.map_app. apply List.in_or_app.
      right. left. reflexivity. }
    destruct Hk' as [Heq|Hin]; [contradiction|].
    assert (Hfront : (S (List.length front) <= List.length others)%nat).
    { rewrite <- (List.length_map fst front).
      change (S (List.length (map fst front)))
        with (List.length (k' :: map fst front)).
      apply List.NoDup_incl_length.
      - constructor.
        + intros Hin'. apply Hget. rewrite Hc, List.map_app.
          apply List.in_or_app. left. exact Hin'.
        + rewrite Hc, List.map_app in Hnd. apply List.NoDup_app_remove_r in Hnd.
          exact Hnd.
      - apply List.incl_cons; assumption. }
    unfold Settings.cache_put.
    destruct (Nat.leb_spec Settings.maxsize (List.length (Settings.cache st)))
      as [Hfull|Hroom].
    + assert (Hback : back <> []).
      { intros ->. rewrite Hc, List.length_app in Hfull. simpl in Hfull. lia. }
      exists ((k', v) :: front), (removelast back).
      split.
      * rewrite Hc. simpl. f_equal.
        rewrite List.removelast_app by discriminate.
        destruct back as [|b back]; [contradiction | reflexivity].
      * simpl. apply List.incl_cons; assumption.
    + exists ((k', v) :: front), back.
      split; [rewrite Hc; reflexivity|].
      simpl. apply List.incl_cons; assumption.
Qed.

Lemma run_calls_keeps_held calls : forall st,
  cache_ok st -> held k s others st ->
  (forall k' amb, In (k', amb) calls -> k' = k \/ In k' others) ->
  held k s others (run_calls calls st).
Proof.
  induction calls as [|[k' amb] calls IH]; intros st Hok Hheld Hkeys; simpl;
    [exact Hheld|].
  apply IH.
  - apply create_cache_ok, Hok.
  - apply create_keeps_held; [exact Hok | exact Hheld |].
    apply (Hkeys k' amb). left. reflexivity.
  - intros k'' amb'' Hin. apply (Hkeys k'' amb''). right. exact Hin.
Qed.

(** A call whose entry is in the cache returns the stored instance and
    reads nothing. *)
Lemma create_hit amb st :
  cache_ok st -> held k s others st ->
  exists st',
    Settings.create k amb st = (Returns s, st')
    /\ Settings.reads st' = Settings.reads st
    /\ Settings.next_oid st' = Settings.next_oid st.
Proof.
  intros [Hnd Hlen] (front & back & Hc & _).
  unfold Settings.create.
  rewrite (cache_get_NoDup k s _ Hnd)
    by (rewrite Hc; apply List.in_or_app; right; left; reflexivity).
  eexists. repeat split.
Qed.

End Recency.

Lemma other_keys_spec k calls k' amb :
  In (k', amb) calls -> k' = k \/ In k' (other_keys k calls).
Proof.
  intros Hin. destruct (decide (k' = k)) as [->|Hne]; [left; reflexivity|].
  right. unfold other_keys. apply List.nodup_In, List.filter_In. split.
  - apply (List.in_map fst) in Hin. exact Hin.
  - rewrite bool_decide_eq_false_2 by assumption. reflexivity.
Qed.

(** C5, as the code has it. After a call of [create] (so also of
    [get_settings]) returned an instance, a later call with the same key
    (the same arguments passed in the same form) returns that very
    instance without reading the settings sources again, whatever the
    surroundings have become, provided fewer than [maxsize = 128] distinct
    other keys were requested in between. *)
Theorem cached_instance_returned_again k amb1 st0 s st1 calls amb2 :
  cache_ok st0 ->
  Settings.create k amb1 st0 = (Returns s, st1) ->
  (List.length (other_keys k calls) < Settings.maxsize)%nat ->
  exists st3,
    Settings.create k amb2 (run_calls calls st1) = (Returns s, st3)
    /\ Settings.reads st3 = Settings.reads (run_calls calls st1)
    /\ Settings.next_oid st3 = Settings.next_oid (run_calls calls st1).
Proof.
  intros Hok Hfirst Hfew.
  assert (Hok1 : cache_ok st1).
  { pose proof (create_cache_ok k amb1 st0 Hok) as H. rewrite Hfirst in H. exact H. }
  apply (create_hit k s (other_keys k calls)).
  - apply run_calls_cache_ok, Hok1.
  - apply (run_calls_keeps_held k s (other_keys k calls) Hfew calls st1 Hok1).
    + apply (create_Returns_front k s (other_keys k calls) amb1 st0 st1 Hok Hfirst).
    + intros k' amb. apply other_keys_spec.
Qed.

Lemma initial_state_cache_ok : cache_ok Settings.initial_state.
Proof. split; [constructor | simpl; unfold Settings.maxsize; lia]. Qed.

(** Two [get_settings(environment="production")] with another call in
    between, the surroundings having changed before the second. *)
Lemma cached_instance_returned_again_witness :
  exists s st1 st3,
    Settings.get_settings Settings.ArgNone (Settings.ArgStr "production") bare
      Settings.initial_state = (Returns s, st1)
    /\ Settings.create (get_settings_key Settings.ArgNone (Settings.ArgStr "production"))
         production_with_overrides
         (run_calls [(get_settings_key Settings.ArgNone Settings.ArgNone, bare)] st1)
       = (Returns s, st3)
    /\ Settings.reads st3
       = Settings.reads
           (run_calls [(get_settings_key Settings.ArgNone Settings.ArgNone, bare)] st1)
    /\ Settings.next_oid st3
       = Settings.next_oid
           (run_calls [(get_settings_key Settings.ArgNone Settings.ArgNone, bare)] st1).
Proof.
  eexists _, _.
  match goal with
  | |- exists st3, ?first = (Returns ?s, ?st1) /\ _ =>
      assert (Hfirst : Settings.create
                         (get_settings_key Settings.ArgNone (Settings.ArgStr "production"))
                         bare Settings.initial_state
                       = (Returns s, st1)) by (vm_compute; reflexivity)
  end.
  destruct (cached_instance_returned_again
              (get_settings_key Settings.ArgNone (Settings.ArgStr "production"))
              bare Settings.initial_state _ _
              [(get_settings_key Settings.ArgNone Settings.ArgNone, bare)]
              production_with_overrides initial_state_cache_ok Hfirst)
    as (st3 & Hsecond & Hreads & Hoid).
  - vm_compute. lia.
  - exists st3. split; [exact Hfirst|]. split; [exact Hsecond|]. split; assumption.
Defined.

(** C5, as stated, fails: the cache holds 128 entries. After
    [get_settings(environment="production")], 128 calls with 128 other
    environment files push its entry out, and the same call again builds a
    new instance, reading the sources again. *)
Lemma cached_instance_evicted_after_128_other_keys :
  exists s1 st1 s2 st2,
    Settings.get_settings Settings.ArgNone (Settings.ArgStr "production") bare
      Settings.initial_state = (Returns s1, st1)
    /\ Settings.get_settings Settings.ArgNone (Settings.ArgStr "production") bare
         (run_calls (many_env_files 128 bare) st1) = (Returns s2, st2)
    /\ s1 <> s2
    /\ Settings.oid s1 <> Settings.oid s2
    /\ (Settings.reads (run_calls (many_env_files 128 bare) st1) < Settings.reads st2)%nat.
Proof.
  eexists _, _, _, _.
  split; [vm_compute; reflexivity|].
  split; [vm_compute; reflexivity|].
  split; [discriminate|].
  split; [discriminate|].
  vm_compute. lia.
Qed.

(** With one key fewer in between the entry is still there. *)
Lemma cached_instance_kept_after_127_other_keys :
  exists s1 st1 st2,
    Settings.get_settings Settings.ArgNone (Settings.ArgStr "production") bare
      Settings.initial_state = (Returns s1, st1)
    /\ Settings.get_settings Settings.ArgNone (Settings.ArgStr "production") bare
         (run_calls (many_env_files 127 bare) st1) = (Returns s1, st2).
Proof.
  eexists _, _, _.
  split; [vm_compute; reflexivity|].
  vm_compute. reflexivity.
Qed.

(** The key is made of the call as written: [SettingsFactory.create()] and
    [get_settings()] both mean [(None, None)], yet the second does not find
    the entry of the first. *)
Lemma same_arguments_in_another_form_miss :
  Settings.bind_arguments {| Settings.k_args := []; Settings.k_kwargs := [] |}
  = Some (Settings.ArgNone, Settings.ArgNone)
  /\ Settings.bind_arguments (get_settings_key Settings.ArgNone Settings.ArgNone)
     = Some (Settings.ArgNone, Settings.ArgNone)
  /\ exists s1 st1 s2 st2,
       Settings.create {| Settings.k_args := []; Settings.k_kwargs := [] |} bare
         Settings.initial_state = (Returns s1, st1)
       /\ Settings.get_settings Settings.ArgNone Settings.ArgNone bare st1
          = (Returns s2, st2)
       /\ Settings.oid s1 <> Settings.oid s2
       /\ (Settings.reads st1 < Settings.reads st2)%nat.
Proof.
  split; [reflexivity|]. split; [reflexivity|].
  eexists _, _, _, _.
  split; [vm_compute; reflexivity|].
  split; [vm_compute; reflexivity|].
  split; [discriminate|].
  vm_compute. lia.
Qed.

(* ===================================================================== *)
(** ** The application bootstrap *)
(* ===================================================================== *)

Lemma include_router_accepted router prefix app :
  accepted_prefix router prefix ->
  Main.include_router router prefix app
  = Returns {| Main.debug := Main.debug app; Main.title := Main.title app;
               Main.version := Main.version app;
               Main.included_routers := Main.included_routers app ++ [(router, prefix)];
               Main.user_middleware := Main.user_middleware app |}.
Proof.
  unfold accepted_prefix.
  destruct prefix as [|c rest].
  - intros Hno.
    assert (Hex : existsb (String.eqb "") (Main.router_paths router) = false).
    { destruct (existsb (String.eqb "") (Main.router_paths router)) eqn:Hex;
        [|reflexivity].
      apply existsb_exists in Hex as (p & Hin & Hp).
      apply String.eqb_eq in Hp. subst p. contradiction. }
    unfold Main.include_router. rewrite Hex. reflexivity.
  - intros [-> Hend].
    assert (Hstart : Main.startswith (String "/" rest) "/" = true)
      by (destruct rest; reflexivity).
    unfold Main.include_router. rewrite Hstart, Hend. reflexivity.
Qed.




(** Importing the module runs [get_settings()] and, when that returns,
    the body on the settings it returned. *)
Lemma import_module_uses_get_settings api_router amb st s st1 :
  Settings.get_settings Settings.ArgNone Settings.ArgNone amb st = (Returns s, st1) ->
  Main.import_module api_router amb st = (Main.module_body api_router s, st1).
Proof. intros H. unfold Main.import_module. rewrite H. reflexivity. Qed.

(* ===================================================================== *)
(** ** The HTTP client in general *)
(* ===================================================================== *)

(** X1. Whatever the verb, its arguments, the configuration and the
    network, a verb call of [HTTPClient] raises the [AttributeError] of
    [logger.debug] (line 221). It makes no underlying request and returns
    no [Result]. What it leaves behind is the pooled client: the one there
    was, with the state untouched, or a newly made one with the [verify]
    flag of the configuration. *)
Theorem verb_call_raises_before_any_request vc st :
  exists st',
    run_verb vc st = (Raises (Http.module_AttributeError "debug"), st')
    /\ requests_of (Http.events st') = requests_of (Http.events st)
    /\ Http.call_count st' = Http.call_count st
    /\ Http.config (Http.self st') = Http.config (Http.self st)
    /\ match Http._client (Http.self st) with
       | Some c => st' = st
       | None =>
           Http._client (Http.self st')
           = Some {| Http.client_id := Http.next_id st;
                     Http.verify := Http.verify_ssl (Http.config (Http.self st)) |}
       end.
Proof.
  exists (snd (Http.get_client st)).
  destruct (get_client_effect st) as (Hc & Hcfg & Hreq & Hsome & Hnone).
  split; [apply run_verb_stops_at_logging|].
  split; [exact Hreq|].
  split; [rewrite !call_count_requests, Hreq; reflexivity|].
  split; [exact Hcfg|].
  destruct (Http._client (Http.self st)) as [c|] eqn:Hst.
  - apply (Hsome c). reflexivity.
  - rewrite Hc. destruct (Hnone eq_refl) as [-> _]. reflexivity.
Qed.


(* ===================================================================== *)
(** ** The module-level pool *)
(* ===================================================================== *)


(* ===================================================================== *)
(** ** More on the settings loader *)
(* ===================================================================== *)

Lemma instantiate_counters cls kwargs amb st :
  Settings.reads (snd (Settings.instantiate cls kwargs amb st)) = S (Settings.reads st)
  /\ match fst (Settings.instantiate cls kwargs amb st) with
     | Returns s =>
         Settings.oid s = Settings.next_oid st
         /\ Settings.next_oid (snd (Settings.instantiate cls kwargs amb st))
            = S (Settings.next_oid st)
     | Raises _ =>
         Settings.next_oid (snd (Settings.instantiate cls kwargs amb st))
         = Settings.next_oid st
     end.
Proof.
  unfold Settings.instantiate.
  repeat match goal with
         | |- context [match ?o with Some _ => _ | None => _ end] => destruct o
         end; simpl; auto.
Qed.

Lemma create_miss_counters k amb st s st' :
  Settings.cache_get k (Settings.cache st) = None ->
  Settings.create k amb st = (Returns s, st') ->
  Settings.reads st' = (Settings.reads st + 2)%nat
  /\ Settings.oid s = S (Settings.next_oid st)
  /\ Settings.next_oid st' = (Settings.next_oid st + 2)%nat.
Proof.
  intros Hmiss. unfold Settings.create. rewrite Hmiss.
  destruct (Settings.bind_arguments k) as [[env_file environment]|]; [|discriminate].
  rewrite create_wrapped_unfold.
  pose proof (instantiate_counters Settings.BaseAppSettings
                (base_kwargs_of env_file environment) amb st) as [Hr1 Ho1].
  destruct (Settings.instantiate Settings.BaseAppSettings _ amb st)
    as [[base|err] st1]; [|discriminate].
  cbn [fst snd] in Hr1, Ho1. destruct Ho1 as [_ Hn1].
  match goal with
  | |- context [Settings.instantiate ?cls _ amb st1] =>
      pose proof (instantiate_counters cls (base_kwargs_of env_file environment) amb st1)
        as [Hr2 Ho2];
      destruct (Settings.instantiate cls (base_kwargs_of env_file environment) amb st1)
        as [[s2|err] st2]; [|discriminate]
  end.
  cbn [fst snd] in Hr2, Ho2. destruct Ho2 as [Hoid Hn2].
  intros H. injection H as <- <-. simpl.
  repeat split; lia.
Qed.

(** X13. A call of [create] that builds (a miss that returns) instantiates
    two settings objects, the base one and the one returned: the sources
    are read twice and the instance returned is the second object made. *)
Theorem create_miss_instantiates_twice k amb st s st' :
  Settings.cache_get k (Settings.cache st) = None ->
  Settings.create k amb st = (Returns s, st') ->
  Settings.reads st' = (Settings.reads st + 2)%nat
  /\ Settings.oid s = S (Settings.next_oid st)
  /\ Settings.next_oid st' = (Settings.next_oid st + 2)%nat.
Proof.
  intros Hmiss. unfold Settings.create. rewrite Hmiss.
  destruct (Settings.bind_arguments k) as [[env_file environment]|]; [|discriminate].
  rewrite create_wrapped_unfold.
  pose proof (instantiate_counters Settings.BaseAppSettings
                (base_kwargs_of env_file environment) amb st) as [Hr1 Ho1].
  destruct (Settings.instantiate Settings.BaseAppSettings _ amb st)
    as [[base|err] st1]; [|discriminate].
  cbn [fst snd] in Hr1, Ho1. destruct Ho1 as [_ Hn1].
  match goal with
  | |- context [Settings.instantiate ?cls _ amb st1] =>
      pose proof (instantiate_counters cls (base_kwargs_of env_file environment) amb st1)
        as [Hr2 Ho2];
      destruct (Settings.instantiate cls (base_kwargs_of env_file environment) amb st1)
        as [[s2|err] st2]; [|discriminate]
  end.
  cbn [fst snd] in Hr2, Ho2. destruct Ho2 as [Hoid Hn2].
  intros H. injection H as <- <-. simpl.
  repeat split; lia.
Qed.

Lemma create_miss_instantiates_twice_witness :
  exists s st',
    Settings.get_settings Settings.ArgNone Settings.ArgNone bare Settings.initial_state
    = (Returns s, st')
    /\ Settings.reads st' = 2%nat /\ Settings.oid s = 1%nat
    /\ Settings.next_oid st' = 2%nat.
Proof.
  eexists _, _. split; [vm_compute; reflexivity|].
  apply (create_miss_instantiates_twice
           (get_settings_key Settings.ArgNone Settings.ArgNone) bare
           Settings.initial_state).
  - reflexivity.
  - vm_compute. reflexivity.
Defined.

(** X15. Whatever calls of [create] and [get_settings] a process makes, the
    cache never holds two entries for one key nor more than 128 entries. *)
Theorem cache_stays_bounded calls :
  List.NoDup (map fst (Settings.cache (run_calls calls Settings.initial_state)))
  /\ (List.length (Settings.cache (run_calls calls Settings.initial_state)) <= 128)%nat.
Proof. apply (run_calls_cache_ok calls _ initial_state_cache_ok). Qed.

Lemma instantiate_independent_of_state cls kwargs amb st1 st2 :
  match fst (Settings.instantiate cls kwargs amb st1) with
  | Returns s1 =>
      exists s2, fst (Settings.instantiate cls kwargs amb st2) = Returns s2
        /\ same_values s1 s2
  | Raises e => fst (Settings.instantiate cls kwargs amb st2) = Raises e
  end.
Proof.
  unfold Settings.instantiate.
  repeat match goal with
         | |- context [match ?o with Some _ => _ | None => _ end] => destruct o
         end; simpl; try reflexivity.
  eexists. split; [reflexivity|]. unfold same_values. simpl. repeat split.
Qed.

Lemma get_settings_miss env_file environment amb st :
  Settings.cache_get (get_settings_key env_file environment) (Settings.cache st) = None ->
  Settings.get_settings env_file environment amb st
  = match Settings.create_wrapped env_file environment amb st with
    | (Returns s, st1) =>
        (Returns s,
         Settings.set_cache
           (Settings.cache_put (get_settings_key env_file environment) s
              (Settings.cache st1)) st1)
    | (Raises e, st1) => (Raises e, st1)
    end.
Proof.
  intros Hmiss. unfold Settings.get_settings, Settings.create.
  fold (get_settings_key env_file environment). rewrite Hmiss.
  change (Settings.bind_arguments (get_settings_key env_file environment))
    with (Some (env_file, environment)).
  cbv beta iota.
  destruct (Settings.create_wrapped env_file environment amb st) as [[s|e] st1];
    reflexivity.
Qed.

(** X16. An empty string passed as [environment] is taken as no argument by
    the body of [create], yet makes another cache key: after
    [get_settings()] has built an instance, [get_settings(environment="")]
    in the same surroundings builds a second one, equal to the first field
    by field. *)
Theorem empty_environment_argument_builds_a_second_instance env_file amb st s1 st1 :
  Settings.cache_get (get_settings_key env_file Settings.ArgNone) (Settings.cache st)
  = None ->
  Settings.cache_get (get_settings_key env_file (Settings.ArgStr "")) (Settings.cache st)
  = None ->
  Settings.get_settings env_file Settings.ArgNone amb st = (Returns s1, st1) ->
  exists s2 st2,
    Settings.get_settings env_file (Settings.ArgStr "") amb st1 = (Returns s2, st2)
    /\ same_values s1 s2
    /\ Settings.oid s2 = (Settings.oid s1 + 2)%nat
    /\ Settings.reads st2 = (Settings.reads st + 4)%nat.
Proof.
  intros Hmiss1 Hmiss2 Hfirst.
  pose proof (create_miss_counters _ _ _ _ _ Hmiss1 Hfirst)
    as (Hreads1 & Hoid1 & Hnext1).
  rewrite (get_settings_miss _ _ _ _ Hmiss1) in Hfirst.
  assert (Hcache1 : Settings.cache_get (get_settings_key env_file (Settings.ArgStr ""))
                      (Settings.cache st1) = None).
  { pose proof (create_wrapped_cache env_file Settings.ArgNone amb st) as Hc.
    destruct (Settings.create_wrapped env_file Settings.ArgNone amb st)
      as [[s|err] st0]; [|discriminate].
    injection Hfirst as -> <-. cbn [snd] in Hc. simpl.
    unfold Settings.cache_put. rewrite Hc.
    assert (Hskip : forall c,
               Settings.cache_get (get_settings_key env_file (Settings.ArgStr "")) c = None ->
               Settings.cache_get (get_settings_key env_file (Settings.ArgStr ""))
                 ((get_settings_key env_file Settings.ArgNone, s1) :: c) = None).
    { intros c Hc0. unfold Settings.cache_get in *. cbn [List.find fst].
      rewrite bool_decide_eq_false_2 by discriminate. exact Hc0. }
    destruct (Settings.maxsize <=? List.length (Settings.cache st))%nat.
    - apply Hskip.
      destruct (Settings.cache_get (get_settings_key env_file (Settings.ArgStr ""))
                  (removelast (Settings.cache st))) as [s0|] eqn:Hrl; [|reflexivity].
      apply cache_get_Some in Hrl. apply cache_get_None in Hmiss2.
      exfalso. apply Hmiss2. apply (removelast_keys_incl (Settings.cache st)).
      apply (List.in_map fst) in Hrl. exact Hrl.
    - apply Hskip, Hmiss2. }
  (* both calls run the body with no environment argument *)
  rewrite (get_settings_miss _ _ _ _ Hcache1).
  change (Settings.create_wrapped env_file (Settings.ArgStr "") amb st1)
    with (Settings.create_wrapped env_file Settings.ArgNone amb st1).
  rewrite create_wrapped_unfold in Hfirst |- *.
  pose proof (instantiate_independent_of_state Settings.BaseAppSettings
                (base_kwargs_of env_file Settings.ArgNone) amb st st1) as Hb.
  pose proof (instantiate_counters Settings.BaseAppSettings
                (base_kwargs_of env_file Settings.ArgNone) amb st1) as [Hr1 Ho1].
  destruct (Settings.instantiate Settings.BaseAppSettings _ amb st)
    as [[base|err] st0]; [|discriminate].
  cbn [fst] in Hb. destruct Hb as (base2 & Hb2 & Hsame).
  destruct (Settings.instantiate Settings.BaseAppSettings _ amb st1)
    as [[base'|err] st1'] eqn:Hi1; cbn [fst snd] in Hb2, Hr1, Ho1; [|discriminate].
  injection Hb2 as ->.
  assert (Henv : Settings.ENVIRONMENT base2 = Settings.ENVIRONMENT base)
    by (symmetry; apply Hsame).
  rewrite Henv.
  match goal with
  | |- context [Settings.instantiate ?cls _ amb st1'] =>
      pose proof (instantiate_independent_of_state cls
                    (base_kwargs_of env_file Settings.ArgNone) amb st0 st1') as Hs;
      pose proof (instantiate_counters cls
                    (base_kwargs_of env_file Settings.ArgNone) amb st1') as [Hr2 Ho2]
  end.
  destruct (Settings.instantiate _ _ amb st0) as [[s|err] st0'];
    [|discriminate].
  injection Hfirst as -> <-.
  cbn [fst] in Hs. destruct Hs as (s2 & Hs2 & Hsame2).
  destruct (Settings.instantiate _ _ amb st1') as [[s2'|err] st2'];
    cbn [fst snd] in Hs2, Hr2, Ho2; [|discriminate].
  injection Hs2 as ->. destruct Ho1 as [_ Hn1]. destruct Ho2 as [Hoid2 Hn2].
  eexists _, _. split; [reflexivity|]. split; [exact Hsame2|].
  simpl in Hn1, Hr1, Hreads1, Hoid1, Hnext1 |- *.
  split; lia.
Qed.

Lemma empty_environment_argument_builds_a_second_instance_witness :
  exists s1 st1 s2 st2,
    Settings.get_settings Settings.ArgNone Settings.ArgNone production_env_file
      Settings.initial_state = (Returns s1, st1)
    /\ Settings.get_settings Settings.ArgNone (Settings.ArgStr "") production_env_file st1
       = (Returns s2, st2)
    /\ same_values s1 s2
    /\ Settings.oid s2 = (Settings.oid s1 + 2)%nat
    /\ Settings.reads st2 = 4%nat.
Proof.
  eexists _, _.
  match goal with
  | |- exists s2 st2, ?first = (Returns ?s1, ?st1) /\ _ =>
      assert (Hfirst : first = (Returns s1, st1)) by (vm_compute; reflexivity)
  end.
  destruct (empty_environment_argument_builds_a_second_instance Settings.ArgNone
              production_env_file Settings.initial_state _ _
              (eq_refl : Settings.cache_get _ [] = None)
              (eq_refl : Settings.cache_get _ [] = None) Hfirst)
    as (s2 & st2 & Hsecond & Hsame & Hoid & Hreads).
  exists s2, st2. repeat split; try assumption; apply Hsame.
Defined.

(* ===================================================================== *)
(** ** [get_test_settings] *)
(* ===================================================================== *)

Lemma testing_field_no_underscore name :
  testing_field name = true -> TestSettings.starts_with_underscore name = false.
Proof.
  unfold testing_field. intros H. apply existsb_exists in H as (f & Hin & Heq).
  apply String.eqb_eq in Heq. subst f.
  simpl in Hin. repeat destruct Hin as [<-|Hin]; try reflexivity. contradiction.
Qed.

Lemma setattr_Returns name value i i' :
  TestSettings.setattr name value i = Returns i' ->
  TestSettings.instance_class i' = TestSettings.instance_class i
  /\ TestSettings.instance_oid i' = TestSettings.instance_oid i
  /\ (forall other, other <> name ->
        TestSettings.fields i' !! other = TestSettings.fields i !! other)
  /\ (TestSettings.starts_with_underscore name = false ->
      TestSettings.fields i' !! name = Some value).
Proof.
  unfold TestSettings.setattr.
  destruct (TestSettings.starts_with_underscore name).
  - intros H. injection H as <-. simpl. repeat split; auto. discriminate.
  - destruct (TestSettings.fields i !! name) eqn:Hf; [|discriminate].
    intros H. injection H as <-. simpl. repeat split.
    + intros other Hne. apply lookup_insert_ne. congruence.
    + intros _. apply lookup_insert_eq.
Qed.

Lemma apply_overrides_Returns override_values : forall i0 i,
  TestSettings.apply_overrides override_values i0 = Returns i ->
  List.NoDup (map fst override_values) ->
  TestSettings.instance_class i = TestSettings.instance_class i0
  /\ TestSettings.instance_oid i = TestSettings.instance_oid i0
  /\ (forall name value, In (name, value) override_values ->
        TestSettings.starts_with_underscore name = false ->
        TestSettings.fields i !! name = Some value)
  /\ (forall name, ~ In name (map fst override_values) ->
        TestSettings.fields i !! name = TestSettings.fields i0 !! name).
Proof.
  induction override_values as [|[key value] rest IH]; intros i0 i Hrun Hnd.
  - simpl in Hrun. injection Hrun as <-. repeat split; auto. intros name v [].
  - simpl in Hrun.
    destruct (TestSettings.setattr key value i0) as [i1|e] eqn:Hset; [|discriminate].
    apply setattr_Returns in Hset as (Hc1 & Ho1 & Hother & Hself).
    simpl in Hnd. apply List.NoDup_cons_iff in Hnd as [Hnotin Hnd].
    destruct (IH i1 i Hrun Hnd) as (Hc & Ho & Hin & Hout).
    split; [congruence|]. split; [congruence|]. split.
    + intros name v [Heq|Hrest] Hu.
      * injection Heq as <- <-. rewrite (Hout key Hnotin). apply Hself, Hu.
      * apply Hin; assumption.
    + intros name Hn. simpl in Hn.
      rewrite Hout by tauto. apply Hother. intros ->. tauto.
Qed.

Lemma instantiate_TestingSettings_flag kwargs amb st s st' :
  Settings.instantiate Settings.TestingSettings kwargs amb st = (Returns s, st') ->
  exists b, Settings.TESTING_flag s = Some b.
Proof.
  unfold Settings.instantiate.
  destruct (Settings.field Settings.validate_bool true kwargs amb "TESTING") as [b|];
    cbn [fmap option_fmap option_map].
  - repeat match goal with
           | |- context [match ?o with Some _ => _ | None => _ end] =>
               destruct o; try discriminate
           end.
    intros H. injection H as <- _. simpl. eauto.
  - repeat match goal with
           | |- context [match ?o with Some _ => _ | None => _ end] =>
               destruct o; try discriminate
           end.
Qed.

Lemma get_test_settings_unfold override_values amb st :
  TestSettings.get_test_settings override_values amb st
  = match Settings.instantiate Settings.TestingSettings
            (base_kwargs_of Settings.ArgNone (Settings.ArgStr "testing")) amb st with
    | (Raises e, st1) => (Raises (TestSettings.Construction e), st1)
    | (Returns test_settings, st1) =>
        (TestSettings.apply_overrides override_values
           (TestSettings.Instance_of test_settings), st1)
    end.
Proof. reflexivity. Qed.

(** X17. [get_test_settings] does not touch the cache of [create] and does
    not look at it: what it returns is the same whatever the cache holds. *)
Theorem get_test_settings_bypasses_the_cache override_values amb st :
  Settings.cache (snd (TestSettings.get_test_settings override_values amb st))
  = Settings.cache st
  /\ forall c,
       fst (TestSettings.get_test_settings override_values amb (Settings.set_cache c st))
       = fst (TestSettings.get_test_settings override_values amb st).
Proof.
  rewrite get_test_settings_unfold. split.
  - pose proof (instantiate_cache Settings.TestingSettings
                  (base_kwargs_of Settings.ArgNone (Settings.ArgStr "testing")) amb st) as H.
    destruct (Settings.instantiate Settings.TestingSettings _ amb st) as [[s|e] st1];
      exact H.
  - intros c. rewrite get_test_settings_unfold.
    unfold Settings.instantiate, Settings.set_cache. cbn [Settings.next_oid].
    repeat match goal with
           | |- context [match ?o with Some _ => _ | None => _ end] => destruct o
           end; reflexivity.
Qed.

(** X18. When [get_test_settings] returns, the instance is a
    [TestingSettings] in which every override given for a field is the
    value of that field, as passed and unvalidated, and every field without
    an override keeps the value the instance was built with; unless
    overridden, [ENVIRONMENT] is [testing] whatever the surroundings
    say. *)
Theorem get_test_settings_reflects_overrides override_values amb st i st' :
  TestSettings.get_test_settings override_values amb st = (Returns i, st') ->
  List.NoDup (map fst override_values) ->
  TestSettings.instance_class i = Settings.TestingSettings
  /\ (forall name value, In (name, value) override_values ->
        testing_field name = true ->
        TestSettings.fields i !! name = Some value)
  /\ (~ In "ENVIRONMENT" (map fst override_values) ->
      TestSettings.fields i !! "ENVIRONMENT"
      = Some (TestSettings.VEnvironment Settings.TESTING))
  /\ exists built st0,
       Settings.instantiate Settings.TestingSettings
         (base_kwargs_of Settings.ArgNone (Settings.ArgStr "testing")) amb st
       = (Returns built, st0)
       /\ forall name, ~ In name (map fst override_values) ->
            TestSettings.fields i !! name = TestSettings.as_dict built !! name.
Proof.
  rewrite get_test_settings_unfold.
  destruct (Settings.instantiate Settings.TestingSettings _ amb st)
    as [[built|e] st1] eqn:Hbuilt; [|discriminate].
  intros Hrun Hnd. injection Hrun as Hrun <-.
  destruct (apply_overrides_Returns _ _ _ Hrun Hnd) as (Hc & _ & Hin & Hout).
  pose proof Hbuilt as Hb.
  apply instantiate_Returns in Hb as (Hcls & _ & _ & _ & Henv).
  rewrite source_value_ENVIRONMENT in Henv.
  assert (Htesting : Settings.ENVIRONMENT built = Settings.TESTING).
  { change (Settings.validate_Environment
              (effective_environment Settings.ArgNone (Settings.ArgStr "testing") amb))
      with (Some Settings.TESTING) in Henv.
    congruence. }
  pose proof (instantiate_TestingSettings_flag _ _ _ _ _ Hbuilt) as Hflag.
  split; [rewrite Hc; exact Hcls|].
  split; [intros name value Hi Hf; apply (Hin name value Hi),
            testing_field_no_underscore, Hf|].
  split.
  - intros Hno. rewrite (Hout _ Hno). unfold TestSettings.Instance_of. simpl.
    unfold TestSettings.as_dict. destruct Hflag as [b ->]. rewrite Htesting.
    reflexivity.
  - exists built, st1. split; [reflexivity|].
    intros name Hno. rewrite (Hout _ Hno). reflexivity.
Qed.

Lemma get_test_settings_reflects_overrides_witness :
  exists i st',
    TestSettings.get_test_settings
      [("DEBUG", TestSettings.VBool false); ("PORT", TestSettings.VStr "not a port")]
      production_process_environment Settings.initial_state = (Returns i, st')
    /\ TestSettings.instance_class i = Settings.TestingSettings
    /\ TestSettings.fields i !! "PORT" = Some (TestSettings.VStr "not a port")
    /\ TestSettings.fields i !! "ENVIRONMENT"
       = Some (TestSettings.VEnvironment Settings.TESTING).
Proof.
  eexists _, _. split; [vm_compute; reflexivity|].
  match goal with
  | |- TestSettings.instance_class ?i = _ /\ _ =>
      destruct (get_test_settings_reflects_overrides
                  [("DEBUG", TestSettings.VBool false);
                   ("PORT", TestSettings.VStr "not a port")]
                  production_process_environment Settings.initial_state i
                  (snd (TestSettings.get_test_settings
                          [("DEBUG", TestSettings.VBool false);
                           ("PORT", TestSettings.VStr "not a port")]
                          production_process_environment Settings.initial_state)))
        as (Hc & Hin & Henv & _)
  end.
  - vm_compute. reflexivity.
  - repeat constructor; simpl; intuition discriminate.
  - split; [exact Hc|]. split.
    + apply Hin; [simpl; tauto | reflexivity].
    + apply Henv. simpl. intuition discriminate.
Defined.

(** X19. The instance [get_test_settings] builds is not cut off from the
    surroundings: a field without an override has the value the process
    environment or the dotenv file [.env] supplies, and the class default
    only when they supply none. For [DEBUG]: *)
Theorem get_test_settings_reads_the_surroundings override_values amb st i st' :
  TestSettings.get_test_settings override_values amb st = (Returns i, st') ->
  List.NoDup (map fst override_values) ->
  ~ In "DEBUG" (map fst override_values) ->
  (supplied Settings.ArgNone amb "DEBUG" = None ->
   TestSettings.fields i !! "DEBUG" = Some (TestSettings.VBool true))
  /\ (forall v, supplied Settings.ArgNone amb "DEBUG" = Some v ->
        exists b, Settings.parse_bool v = Some b
          /\ TestSettings.fields i !! "DEBUG" = Some (TestSettings.VBool b)).
Proof.
  rewrite get_test_settings_unfold.
  destruct (Settings.instantiate Settings.TestingSettings _ amb st)
    as [[built|e] st1] eqn:Hbuilt; [|discriminate].
  intros Hrun Hnd Hno. injection Hrun as Hrun <-.
  destruct (apply_overrides_Returns _ _ _ Hrun Hnd) as (_ & _ & _ & Hout).
  rewrite (Hout _ Hno).
  pose proof (instantiate_TestingSettings_flag _ _ _ _ _ Hbuilt) as Hflag.
  assert (Hd : TestSettings.fields (TestSettings.Instance_of built) !! "DEBUG"
               = Some (TestSettings.VBool (Settings.DEBUG built))).
  { unfold TestSettings.Instance_of, TestSettings.as_dict. simpl.
    destruct Hflag as [b ->]. reflexivity. }
  rewrite Hd.
  apply instantiate_Returns in Hbuilt as (_ & _ & Hdebug & _).
  unfold Settings.field in Hdebug.
  rewrite source_value_other in Hdebug by discriminate.
  split.
  - intros Hn. rewrite Hn in Hdebug. simpl in Hdebug. congruence.
  - intros v Hv. rewrite Hv in Hdebug. simpl in Hdebug. eauto.
Qed.

Lemma get_test_settings_reads_the_surroundings_witness :
  exists i st',
    TestSettings.get_test_settings [] production_process_environment
      Settings.initial_state = (Returns i, st')
    /\ TestSettings.fields i !! "DEBUG" = Some (TestSettings.VBool false).
Proof.
  eexists _, _. split; [vm_compute; reflexivity|].
  match goal with
  | |- TestSettings.fields ?i !! _ = _ =>
      destruct (get_test_settings_reads_the_surroundings []
                  production_process_environment Settings.initial_state i
                  (snd (TestSettings.get_test_settings [] production_process_environment
                          Settings.initial_state)))
        as (_ & Hsup)
  end.
  - vm_compute. reflexivity.
  - constructor.
  - simpl. tauto.
  - destruct (Hsup "false") as (b & Hb & Hf); [vm_compute; reflexivity|].
    vm_compute in Hb. injection Hb as <-. exact Hf.
Defined.

(* ===================================================================== *)
(** ** The logger and loguru's registry of handlers *)
(* ===================================================================== *)

Lemma loguru_add_Returns call core handler_id core' :
  Logger.loguru_add call core = (Returns handler_id, core') ->
  handler_id = Logger.handlers_count core
  /\ Logger.handlers core' = <[handler_id := call]> (Logger.handlers core)
  /\ Logger.handlers_count core' = S (Logger.handlers_count core)
  /\ Logger.add_fails core' = Logger.add_fails core
  /\ Logger.unexpected_kwargs call = []
  /\ Logger.add_fails core call = None.
Proof.
  unfold Logger.loguru_add.
  destruct (Logger.unexpected_kwargs call) as [|[name v] rest]; [|discriminate].
  destruct (Logger.add_fails core call); [discriminate|].
  intros H. injection H as <- <-. simpl. auto 10.
Qed.

Lemma loguru_add_accepted call core :
  Logger.unexpected_kwargs call = [] ->
  Logger.add_fails core call = None ->
  Logger.loguru_add call core
  = (Returns (Logger.handlers_count core),
     Logger.with_handlers (<[Logger.handlers_count core := call]> (Logger.handlers core))
       (S (Logger.handlers_count core)) core).
Proof.
  intros Hk Hf. unfold Logger.loguru_add. rewrite Hk, Hf. reflexivity.
Qed.

Lemma init_kwargs_spec cfg name value :
  In (name, value) (Logger.init_kwargs cfg)
  <-> Logger.is_path (Logger.sink cfg) = true
      /\ Logger.truthy_str value = true
      /\ In (name, value) [("rotation", Logger.rotation cfg);
                           ("retention", Logger.retention cfg);
                           ("compression", Logger.compression cfg)].
Proof.
  unfold Logger.init_kwargs.
  destruct (Logger.is_path (Logger.sink cfg)).
  - rewrite !List.in_app_iff.
    destruct (Logger.truthy_str (Logger.rotation cfg)) eqn:H1,
             (Logger.truthy_str (Logger.retention cfg)) eqn:H2,
             (Logger.truthy_str (Logger.compression cfg)) eqn:H3;
      simpl; split;
      try (intros [[Heq|[]]|[[Heq|[]]|[Heq|[]]]]; injection Heq as <- <-; auto 10);
      try (intros [[Heq|[]]|[[]|[Heq|[]]]]; injection Heq as <- <-; auto 10);
      try (intros [[Heq|[]]|[[Heq|[]]|[]]]; injection Heq as <- <-; auto 10);
      try (intros [[]|[[Heq|[]]|[Heq|[]]]]; injection Heq as <- <-; auto 10);
      try (intros [[Heq|[]]|[[]|[]]]; injection Heq as <- <-; auto 10);
      try (intros [[]|[[Heq|[]]|[]]]; injection Heq as <- <-; auto 10);
      try (intros [[]|[[]|[Heq|[]]]]; injection Heq as <- <-; auto 10);
      try (intros [[]|[[]|[]]]);
      intros (_ & Ht & [Heq|[Heq|[Heq|[]]]]); injection Heq as <- <-;
      try (rewrite Ht in *; discriminate); auto 10.
  - simpl. split; [intros [] | intros [H _]; discriminate].
Qed.

Lemma init_kwargs_expected cfg :
  Logger.unexpected_kwargs (init_call cfg) = [].
Proof.
  unfold Logger.unexpected_kwargs, init_call, Logger.init_kwargs. simpl.
  destruct (Logger.sink cfg); reflexivity.
Qed.

Lemma Logger_init_unfold config_arg core :
  Logger.Logger_init config_arg core
  = match Logger.loguru_add (init_call (config_or_default config_arg))
            (Logger.loguru_remove_all core) with
    | (Returns handler_id, core2) =>
        (Returns {| Logger.config := config_or_default config_arg;
                    Logger._handler_id := handler_id |}, core2)
    | (Raises e, core2) => (Raises e, core2)
    end.
Proof. reflexivity. Qed.

(** X20. A logger that could be made holds the only handler of the process:
    whatever handlers were registered before, made by other loggers or
    added by hand, are gone, and the one left is on the configured sink,
    level and format. It has a rotation, retention or compression only if
    the sink is a path and that setting is a non-empty string. *)
Theorem Logger_init_leaves_one_handler config_arg core lg core' :
  Logger.Logger_init config_arg core = (Returns lg, core') ->
  Logger.config lg = config_or_default config_arg
  /\ Logger._handler_id lg = Logger.handlers_count core
  /\ Logger.handlers core' = {[ Logger._handler_id lg := init_call (Logger.config lg) ]}
  /\ (forall name value,
        In (name, value) (Logger.add_kwargs (init_call (Logger.config lg)))
        <-> Logger.is_path (Logger.sink (Logger.config lg)) = true
            /\ Logger.truthy_str value = true
            /\ In (name, value) [("rotation", Logger.rotation (Logger.config lg));
                                 ("retention", Logger.retention (Logger.config lg));
                                 ("compression", Logger.compression (Logger.config lg))]).
Proof.
  rewrite Logger_init_unfold.
  destruct (Logger.loguru_add _ _) as [[handler_id|e] core2] eqn:Hadd; [|discriminate].
  intros H. injection H as <- <-.
  apply loguru_add_Returns in Hadd as (Hid & Hh & _).
  simpl in Hid, Hh |- *.
  split; [reflexivity|]. split; [exact Hid|]. split; [exact Hh|].
  intros name value. apply init_kwargs_spec.
Qed.

Lemma Logger_init_leaves_one_handler_witness :
  exists lg core',
    file_logger_run = (Returns lg, core')
    /\ Logger._handler_id lg = 1%nat
    /\ Logger.handlers core' = {[ 1%nat := init_call (Logger.config lg) ]}
    /\ Logger.add_kwargs (init_call (Logger.config lg))
       = [("rotation", Some "10 MB"); ("retention", Some "1 week");
          ("compression", Some "zip")].
Proof.
  eexists _, _. split; [vm_compute; reflexivity|].
  match goal with
  | |- Logger._handler_id ?lg = _ /\ Logger.handlers ?core' = _ /\ _ =>
      destruct (Logger_init_leaves_one_handler
                  (Some (Logger.LoggerConfig_init (Some (Logger.LevelName "INFO"))
                           (Some (Logger.str_replace "{name}" "app" Logger.default_format))
                           (Some (Logger.PathStr "logs/app.log"))
                           (Some "10 MB") (Some "1 week") (Some "zip")))
                  loguru_at_start lg core')
        as (_ & Hid & Hh & _)
  end.
  - vm_compute. reflexivity.
  - split; [exact Hid|]. split; [exact Hh | reflexivity].
Defined.

(** X21. [set_level] on a logger whose sink loguru does not take for a
    file (the console logger: [sys.stderr]) cannot put the handler back:
    loguru refuses the [rotation] keyword for such a sink. The call raises
    [TypeError] after the old handler has been removed and the level
    recorded; the logger is left without a handler. *)
Theorem set_level_without_path_sink_loses_the_handler l lg core h :
  Logger.is_file_sink (Logger.sink (Logger.config lg)) = false ->
  Logger.handlers core !! Logger._handler_id lg = Some h ->
  exists e core',
    Logger.set_level l lg core
    = (Raises e,
       {| Logger.config := Logger.set_config_level l (Logger.config lg);
          Logger._handler_id := Logger._handler_id lg |}, core')
    /\ isinstance e "TypeError" = true
    /\ Logger.handlers core' = base.delete (Logger._handler_id lg) (Logger.handlers core)
    /\ Logger.handlers core' !! Logger._handler_id lg = None.
Proof.
  intros Hpath Hh. unfold Logger.set_level, Logger.loguru_remove. rewrite Hh.
  unfold Logger.loguru_add, Logger.unexpected_kwargs. cbn [Logger.add_sink Logger.add_kwargs
    Logger.config Logger.set_config_level Logger.sink Logger.rotation].
  destruct (Logger.sink (Logger.config lg)) eqn:Hs; try discriminate; simpl;
    eexists _, _; (split; [reflexivity|]); (split; [reflexivity|]);
    (split; [reflexivity | apply lookup_delete_eq]).
Qed.

Lemma set_level_without_path_sink_loses_the_handler_witness :
  exists lg core1 e core2,
    main_logger_run = (Returns lg, core1)
    /\ Logger.set_level (Logger.LevelName "DEBUG") lg core1
       = (Raises e,
          {| Logger.config :=
               Logger.set_config_level (Logger.LevelName "DEBUG") (Logger.config lg);
             Logger._handler_id := Logger._handler_id lg |}, core2)
    /\ isinstance e "TypeError" = true
    /\ Logger.handlers core2 = ∅.
Proof.
  eexists _, _.
  match goal with
  | |- exists e core2, ?run = (Returns ?lg, ?core1) /\ _ =>
      assert (Hrun : run = (Returns lg, core1)) by (vm_compute; reflexivity);
      destruct (set_level_without_path_sink_loses_the_handler
                  (Logger.LevelName "DEBUG") lg core1
                  (init_call (Logger.config lg)))
        as (e & core2 & Hset & Hty & Hh & _)
  end.
  - reflexivity.
  - vm_compute. reflexivity.
  - exists e, core2. split; [exact Hrun|]. split; [exact Hset|].
    split; [exact Hty|]. rewrite Hh. vm_compute. reflexivity.
Defined.

Lemma Logger_init_core_ok config_arg core lg core' :
  Logger.Logger_init config_arg core = (Returns lg, core') -> core_ok core'.
Proof.
  rewrite Logger_init_unfold.
  destruct (Logger.loguru_add _ _) as [[handler_id|e] core2] eqn:Hadd; [|discriminate].
  intros H. injection H as <- <-.
  apply loguru_add_Returns in Hadd as (Hid & Hh & Hcount & _).
  simpl in Hid, Hh, Hcount.
  intros i h Hi. rewrite Hh in Hi. rewrite Hcount.
  destruct (decide (i = handler_id)) as [->|Hne]; [lia|].
  rewrite lookup_insert_ne in Hi by congruence. rewrite lookup_empty in Hi.
  discriminate.
Qed.

(** X22. [set_level] on a logger whose sink is a path swaps the handler:
    when the handler of the logger is registered and loguru accepts the new
    one, the old id is removed, a new id holds a handler on the same sink
    and format with the new level, every other handler stays, and the
    logger records the new level and the new id. *)
Theorem set_level_with_path_sink_swaps_the_handler l lg core h :
  core_ok core ->
  Logger.is_path (Logger.sink (Logger.config lg)) = true ->
  Logger.handlers core !! Logger._handler_id lg = Some h ->
  Logger.add_fails core (set_level_call l (Logger.config lg)) = None ->
  exists lg' core',
    Logger.set_level l lg core = (Returns tt, lg', core')
    /\ Logger.config lg' = Logger.set_config_level l (Logger.config lg)
    /\ Logger._handler_id lg' = Logger.handlers_count core
    /\ Logger.handlers core' !! Logger._handler_id lg = None
    /\ Logger.handlers core' !! Logger._handler_id lg'
       = Some (set_level_call l (Logger.config lg))
    /\ forall i, i <> Logger._handler_id lg -> i <> Logger._handler_id lg' ->
         Logger.handlers core' !! i = Logger.handlers core !! i.
Proof.
  intros Hok Hpath Hh Hacc.
  pose proof (Hok _ _ Hh) as Hlt.
  unfold Logger.set_level, Logger.loguru_remove. rewrite Hh.
  change {| Logger.add_sink :=
              Logger.sink (Logger.config
                {| Logger.config := Logger.set_config_level l (Logger.config lg);
                   Logger._handler_id := Logger._handler_id lg |});
            Logger.add_level := _; Logger.add_format := _; Logger.add_kwargs := _ |}
    with (set_level_call l (Logger.config lg)).
  rewrite loguru_add_accepted.
  - eexists _, _. split; [reflexivity|]. simpl.
    split; [reflexivity|]. split; [reflexivity|].
    split.
    { rewrite lookup_insert_ne by lia. apply lookup_delete_eq. }
    split; [apply lookup_insert_eq|].
    intros i H1 H2. rewrite lookup_insert_ne by congruence.
    apply lookup_delete_ne. congruence.
  - unfold Logger.unexpected_kwargs, set_level_call. simpl.
    destruct (Logger.sink (Logger.config lg)); try discriminate; reflexivity.
  - exact Hacc.
Qed.

Lemma set_level_with_path_sink_swaps_the_handler_witness :
  exists lg core1 lg' core2,
    file_logger_run = (Returns lg, core1)
    /\ Logger.set_level (Logger.LevelName "DEBUG") lg core1 = (Returns tt, lg', core2)
    /\ Logger._handler_id lg = 1%nat /\ Logger._handler_id lg' = 2%nat
    /\ Logger.handlers core2 !! 1%nat = None
    /\ Logger.handlers core2 !! 2%nat
       = Some (set_level_call (Logger.LevelName "DEBUG") (Logger.config lg)).
Proof.
  eexists _, _.
  match goal with
  | |- exists lg' core2, ?run = (Returns ?lg, ?core1) /\ _ =>
      assert (Hrun : run = (Returns lg, core1)) by (vm_compute; reflexivity);
      destruct (set_level_with_path_sink_swaps_the_handler
                  (Logger.LevelName "DEBUG") lg core1 (init_call (Logger.config lg)))
        as (lg' & core2 & Hset & _ & Hid & Hold & Hnew & _)
  end.
  - eapply Logger_init_core_ok. exact Hrun.
  - reflexivity.
  - vm_compute. reflexivity.
  - reflexivity.
  - exists lg', core2. split; [exact Hrun|]. split; [exact Hset|].
    split; [reflexivity|]. split; [exact Hid|]. split; [exact Hold|].
    rewrite Hid in Hnew. exact Hnew.
Defined.

(** X23. Loggers are not independent. Once a second logger has been made,
    the handler of the first is no longer registered: [set_level] and
    [remove_handler] of its id raise [ValueError] and change nothing. *)
Theorem second_logger_unregisters_the_first config1 config2 core0 lg1 core1 lg2 core2 :
  Logger.Logger_init config1 core0 = (Returns lg1, core1) ->
  Logger.Logger_init config2 core1 = (Returns lg2, core2) ->
  Logger.handlers core2 !! Logger._handler_id lg1 = None
  /\ (forall l, exists e,
        Logger.set_level l lg1 core2 = (Raises e, lg1, core2)
        /\ isinstance e "ValueError" = true)
  /\ exists e,
       Logger.remove_handler (Logger._handler_id lg1) lg1 core2 = (Raises e, core2)
       /\ isinstance e "ValueError" = true.
Proof.
  rewrite !Logger_init_unfold.
  destruct (Logger.loguru_add _ (Logger.loguru_remove_all core0))
    as [[id1|e1] c1] eqn:Hadd1; [|discriminate].
  intros H. injection H as <- <-.
  destruct (Logger.loguru_add _ (Logger.loguru_remove_all c1))
    as [[id2|e2] c2] eqn:Hadd2; [|discriminate].
  intros H. injection H as <- <-.
  apply loguru_add_Returns in Hadd1 as (Hid1 & _ & Hcount1 & _).
  apply loguru_add_Returns in Hadd2 as (Hid2 & Hh2 & _).
  simpl in Hid1, Hcount1, Hid2, Hh2.
  assert (Hgone : Logger.handlers c2 !! id1 = None).
  { rewrite Hh2. rewrite lookup_insert_ne by lia. apply lookup_empty. }
  simpl. split; [exact Hgone|]. split.
  - intros l. unfold Logger.set_level, Logger.loguru_remove. simpl. rewrite Hgone.
    eexists. split; reflexivity.
  - unfold Logger.remove_handler, Logger.loguru_remove. rewrite Hgone.
    eexists. split; reflexivity.
Qed.

Lemma second_logger_unregisters_the_first_witness :
  exists lg1 core1 lg2 core2 e,
    main_logger_run = (Returns lg1, core1)
    /\ Logger.create (Some "worker") None None None core1 = (Returns lg2, core2)
    /\ Logger.set_level (Logger.LevelName "DEBUG") lg1 core2 = (Raises e, lg1, core2)
    /\ isinstance e "ValueError" = true.
Proof.
  eexists _, _, _, _.
  match goal with
  | |- exists e, ?run1 = (Returns ?lg1, ?core1) /\ ?run2 = (Returns ?lg2, ?core2) /\ _ =>
      assert (Hrun1 : run1 = (Returns lg1, core1)) by (vm_compute; reflexivity);
      assert (Hrun2 : run2 = (Returns lg2, core2)) by (vm_compute; reflexivity);
      destruct (second_logger_unregisters_the_first _ _ _ lg1 core1 lg2 core2
                  Hrun1 Hrun2) as (_ & Hset & _)
  end.
  destruct (Hset (Logger.LevelName "DEBUG")) as (e & He & Hty).
  exists e. split; [exact Hrun1|]. split; [exact Hrun2|]. split; assumption.
Defined.

(** X24. A handler added with [add_handler] gets a new id and sits beside the
    others, the primary one included; removing it with [remove_handler]
    gives back the registry there was before. *)
Theorem add_handler_then_remove_handler sink_arg level_arg format_arg kwargs lg core
    handler_id core1 :
  core_ok core ->
  Logger.add_handler sink_arg level_arg format_arg kwargs lg core
  = (Returns handler_id, core1) ->
  Logger.handlers core !! handler_id = None
  /\ (forall i, i <> handler_id ->
        Logger.handlers core1 !! i = Logger.handlers core !! i)
  /\ (exists call, Logger.handlers core1 !! handler_id = Some call
        /\ Logger.add_sink call = sink_arg
        /\ Logger.add_format call
           = if Logger.truthy_str format_arg then default "" format_arg
             else Logger.format (Logger.config lg))
  /\ exists core2,
       Logger.remove_handler handler_id lg core1 = (Returns tt, core2)
       /\ Logger.handlers core2 = Logger.handlers core.
Proof.
  intros Hok Hadd. unfold Logger.add_handler in Hadd.
  apply loguru_add_Returns in Hadd as (Hid & Hh & _).
  assert (Hfresh : Logger.handlers core !! handler_id = None).
  { destruct (Logger.handlers core !! handler_id) as [h|] eqn:E; [|reflexivity].
    apply Hok in E. lia. }
  split; [exact Hfresh|]. split.
  - intros i Hne. rewrite Hh. apply lookup_insert_ne. congruence.
  - split.
    + eexists. rewrite Hh, lookup_insert_eq. split; [reflexivity|].
      split; reflexivity.
    + unfold Logger.remove_handler, Logger.loguru_remove.
      rewrite Hh, lookup_insert_eq. eexists. split; [reflexivity|].
      simpl. apply delete_insert_id, Hfresh.
Qed.

Lemma add_handler_then_remove_handler_witness :
  exists lg core0 core2,
    main_logger_run = (Returns lg, core0)
    /\ Logger.remove_handler 2%nat lg
         (snd (Logger.add_handler (Logger.PathStr "audit.log") None None
                 [("rotation", Some "1 day")] lg core0))
       = (Returns tt, core2)
    /\ Logger.handlers core2 = Logger.handlers core0.
Proof.
  eexists _, _.
  match goal with
  | |- exists core2, ?run = (Returns ?lg, ?core0) /\ _ =>
      assert (Hrun : run = (Returns lg, core0)) by (vm_compute; reflexivity);
      destruct (add_handler_then_remove_handler (Logger.PathStr "audit.log") None None
                  [("rotation", Some "1 day")] lg core0 2%nat
                  (snd (Logger.add_handler (Logger.PathStr "audit.log") None None
                          [("rotation", Some "1 day")] lg core0)))
        as (_ & _ & _ & core2 & Hrm & Hh)
  end.
  - eapply Logger_init_core_ok. exact Hrun.
  - vm_compute. reflexivity.
  - exists core2. split; [exact Hrun|]. split; assumption.
Defined.

(** *** The format the factories hand over *)

Lemma replace_from_absent old new : forall s,
  occurs old s = false -> Logger.replace_from old new 0 s = s.
Proof.
  induction s as [|c s IH]; intros Hno; [reflexivity|].
  cbn [occurs] in Hno. apply orb_false_iff in Hno as [Hhere Hlater].
  cbn [Logger.replace_from]. rewrite Hhere. rewrite IH by exact Hlater. reflexivity.
Qed.

Lemma create_unfold name_arg level_arg sink_arg format_arg core :
  Logger.create name_arg level_arg sink_arg format_arg core
  = Logger.Logger_init
      (Some {| Logger.level := default (Logger.LevelName "INFO") level_arg;
               Logger.format :=
                 Logger.str_replace "{name}" (default "app" name_arg)
                   (match format_arg with
                    | None => Logger.default_format
                    | Some f => f
                    end);
               Logger.sink := default (Logger.Object "sys.stderr") sink_arg;
               Logger.rotation := None; Logger.retention := None;
               Logger.compression := None |}) core.
Proof. reflexivity. Qed.

(** X25. A format without the text [{name}] reaches the logger unchanged: the
    name given to the factory then plays no part in what is logged. *)
Theorem format_without_placeholder_is_kept name_arg level_arg sink_arg fmt core lg core' :
  occurs "{name}" fmt = false ->
  Logger.create name_arg level_arg sink_arg (Some fmt) core = (Returns lg, core') ->
  Logger.format (Logger.config lg) = fmt
  /\ Logger.handlers core'
     = {[ Logger._handler_id lg :=
            {| Logger.add_sink := default (Logger.Object "sys.stderr") sink_arg;
               Logger.add_level := default (Logger.LevelName "INFO") level_arg;
               Logger.add_format := fmt; Logger.add_kwargs := [] |} ]}.
Proof.
  intros Hno. rewrite create_unfold.
  assert (Hfmt : Logger.str_replace "{name}" (default "app" name_arg) fmt = fmt)
    by (apply (replace_from_absent "{name}"), Hno).
  rewrite Hfmt, Logger_init_unfold.
  destruct (Logger.loguru_add _ _) as [[handler_id|e] core2] eqn:Hadd; [|discriminate].
  intros H. injection H as <- <-.
  apply loguru_add_Returns in Hadd as (_ & Hh & _).
  split; [reflexivity|].
  rewrite Hh. unfold init_call, Logger.init_kwargs. simpl.
  destruct (Logger.is_path (default (Logger.Object "sys.stderr") sink_arg));
    reflexivity.
Qed.

Lemma format_without_placeholder_is_kept_witness :
  exists lg core',
    Logger.create (Some "main") None None (Some "{level} {message}") loguru_at_start
    = (Returns lg, core')
    /\ Logger.format (Logger.config lg) = "{level} {message}".
Proof.
  eexists _, _. split; [vm_compute; reflexivity|].
  match goal with
  | |- Logger.format (Logger.config ?lg) = _ =>
      apply (proj1 (format_without_placeholder_is_kept (Some "main") None None
                      "{level} {message}" loguru_at_start lg
                      (snd (Logger.create (Some "main") None None
                              (Some "{level} {message}") loguru_at_start))
                      eq_refl eq_refl))
  end.
Defined.

(** X26. With the default format, the name given to [create] stands where
    [{name}] stood, and the rest of the format is as written. *)
Theorem default_format_carries_the_name name level_arg sink_arg core lg core' :
  Logger.create (Some name) level_arg sink_arg None core = (Returns lg, core') ->
  Logger.format (Logger.config lg)
  = "{time:YYYY-MM-DD HH:mm:ss} | {level} | " +:+ name
    +:+ ":{function}:{line} | {message}".
Proof.
  unfold Logger.create. rewrite Logger_init_unfold.
  destruct (Logger.loguru_add _ _) as [[handler_id|e] core2]; [|discriminate].
  intros H. injection H as <- _. reflexivity.
Qed.

Lemma default_format_carries_the_name_witness :
  exists lg core',
    main_logger_run = (Returns lg, core')
    /\ Logger.format (Logger.config lg)
       = "{time:YYYY-MM-DD HH:mm:ss} | {level} | main:{function}:{line} | {message}".
Proof.
  eexists _, _. split; [vm_compute; reflexivity|].
  match goal with
  | |- Logger.format (Logger.config ?lg) = _ =>
      apply (default_format_carries_the_name "main" None None loguru_at_start lg
               (snd main_logger_run) eq_refl)
  end.
Defined.

(* ===================================================================== *)
(** ** Importing the application with class defaults *)
(* ===================================================================== *)

(** X27. When the surroundings supply at most [ENVIRONMENT], importing the
    application module gives an app whose debug flag and CORS policy are
    the defaults of the class of that environment: debug on in development
    and testing, the wildcard CORS middleware in development only, where
    nothing at all is set included. *)
Theorem import_module_with_class_defaults api_router amb st e :
  Settings.cache_get (get_settings_key Settings.ArgNone Settings.ArgNone)
    (Settings.cache st) = None ->
  Settings.validate_Environment
    (effective_environment Settings.ArgNone Settings.ArgNone amb) = Some e ->
  (forall name, In name other_settings_keys ->
     supplied Settings.ArgNone amb name = None) ->
  exists app logs st',
    Main.import_module api_router amb st = (Returns (app, logs), st')
    /\ Main.debug app
       = match e with
         | Settings.DEVELOPMENT | Settings.TESTING => true
         | _ => false
         end
    /\ Main.user_middleware app
       = match e with
         | Settings.DEVELOPMENT => [Main.CORSMiddleware_wildcard]
         | _ => []
         end
    /\ Main.included_routers app = [(api_router, "/api")].
Proof.
  intros Hmiss He Hnone.
  destruct (create_wrapped_returns_class_defaults Settings.ArgNone Settings.ArgNone
              amb st e He Hnone) as (s & st1 & Hw & Hcls & Henv & Hdebug & Hcors).
  unfold Main.import_module.
  rewrite (get_settings_miss _ _ _ _ Hmiss), Hw.
  assert (Hprefix : Settings.API_PREFIX s = "/api").
  { revert Hw. rewrite create_wrapped_unfold.
    destruct (Settings.instantiate Settings.BaseAppSettings _ amb st)
      as [[base|err] st0]; [|discriminate].
    intros Hs. revert Hs. unfold Settings.instantiate.
    assert (Hf : Settings.field Settings.validate_str "/api"
                   (base_kwargs_of Settings.ArgNone Settings.ArgNone) amb "API_PREFIX"
                 = Some "/api").
    { unfold Settings.field. rewrite source_value_other by discriminate.
      rewrite Hnone by (simpl; tauto). reflexivity. }
    rewrite Hf.
    repeat match goal with
           | |- context [match ?o with Some _ => _ | None => _ end] =>
               destruct o; try discriminate
           end.
    intros H. injection H as <- _. reflexivity. }
  unfold Main.module_body, Main.get_application. rewrite Hprefix.
  rewrite include_router_accepted by (simpl; split; reflexivity).
  rewrite Hcors, Hdebug.
  destruct e; simpl; eexists _, _, _; (split; [reflexivity|]); simpl; repeat split.
Qed.

Lemma import_module_with_class_defaults_witness :
  exists app logs st',
    Main.import_module health_router bare Settings.initial_state
    = (Returns (app, logs), st')
    /\ Main.debug app = true
    /\ Main.user_middleware app = [Main.CORSMiddleware_wildcard].
Proof.
  destruct (import_module_with_class_defaults health_router
              bare Settings.initial_state Settings.DEVELOPMENT)
    as (app & logs & st' & Hrun & Hd & Hm & _).
  - reflexivity.
  - reflexivity.
  - intros name Hin. reflexivity.
  - exists app, logs, st'. auto.
Defined.
